(** * state-scan validation: key construction, reconciliation, metrics and
      categorisation of [archive/v1/validation/compare.py] and
      [archive/v1/validation/compare-v7.py]

    The two scripts share [normalize_class_name], [create_key], [compare] and
    the metric formulas of [main] word for word; [categorize_by_type] exists
    in [compare-v7.py] only.  The embedding is shallow: every Python function
    is a Rocq function of the same name.

    - A finding is a Python dict read with [.get(field, '')]; it is a record
      of optional strings, [None] being an absent entry.
    - A Python [str] is a [string]; ['$'] and ['.'] are ASCII, so replacing
      one by the other acts the same on code points and on UTF-8 bytes.
    - A Python [dict] keeps its keys in insertion order and an assignment to
      a key that is present keeps the key's place: [PyDict] is an association
      list with exactly that update.
    - [list.append] in a [for] loop is a left fold that extends the
      accumulator at its end.
    - A Python [float] is an IEEE 754 binary64 number: [spec_float] with the
      operations of [SpecFloat] at precision 53. *)

From Stdlib Require Import List String Ascii Bool Arith Lia ZArith.
From Stdlib Require Import Floats.SpecFloat Floats.FloatOps Floats.FloatAxioms.
From Stdlib Require Import Sorting.Permutation Sorting.Sorted.
From Stdlib Require Import Numbers.DecimalString.
Import ListNotations.

Set Implicit Arguments.

Local Open Scope string_scope.
Local Open Scope list_scope.

(** ** Strings *)

(** [s.replace(old, new)] for one-character [old] and [new]. *)
Fixpoint replace_char (old new : ascii) (s : string) : string :=
  match s with
  | EmptyString => EmptyString
  | String c rest =>
      String (if Ascii.eqb c old then new else c) (replace_char old new rest)
  end.

(** [needle in hay] on Python strings: [needle] occurs as a substring. *)
Fixpoint contains (needle hay : string) : bool :=
  prefix needle hay
  || match hay with
     | EmptyString => false
     | String _ rest => contains needle rest
     end.

(** ** Findings *)

Record Finding : Type := mkFinding {
  className : option string;
  fieldName : option string;
  fieldType : option string;
  pattern   : option string;
  riskLevel : option string
}.

(** [finding.get(field, default)]. *)
Definition get (field : Finding -> option string) (finding : Finding)
    (default : string) : string :=
  match field finding with
  | Some v => v
  | None => default
  end.

(** ** KeyBuilder *)

(** [return name.replace('$', '.')] *)
Definition normalize_class_name (name : string) : string :=
  replace_char "$"%char "."%char name.

(** [class_name = normalize_class_name(finding.get('className', ''))],
    [field_name = finding.get('fieldName', '')],
    [return f"{class_name}::{field_name}"] *)
Definition create_key (finding : Finding) : string :=
  let class_name := normalize_class_name (get className finding "") in
  let field_name := get fieldName finding "" in
  class_name ++ "::" ++ field_name.

(** ** Insertion-ordered dictionaries *)

Module PyDict.
Section Dict.
Variable V : Type.

Definition t : Type := list (string * V).

Definition empty : t := [].

(** [d[k] = v]: overwrite in place when [k] is present, append otherwise. *)
Fixpoint set (d : t) (k : string) (v : V) : t :=
  match d with
  | [] => [(k, v)]
  | (k', v') :: rest =>
      if String.eqb k' k then (k', v) :: rest
      else (k', v') :: set rest k v
  end.

(** [d[k]], [None] standing for [KeyError]. *)
Fixpoint lookup (d : t) (k : string) : option V :=
  match d with
  | [] => None
  | (k', v') :: rest => if String.eqb k' k then Some v' else lookup rest k
  end.

(** [k in d] *)
Definition mem (d : t) (k : string) : bool :=
  match lookup d k with
  | Some _ => true
  | None => false
  end.

(** [d.items()], in insertion order. *)
Definition items (d : t) : list (string * V) := d.

Definition keys (d : t) : list string := map fst d.
End Dict.
End PyDict.

(** ** Reconciler *)

(** [{create_key(f): f for f in findings}] *)
Definition key_dict (findings : list Finding) : PyDict.t Finding :=
  fold_left (fun d f => PyDict.set d (create_key f) f) findings
            (PyDict.empty Finding).

(** One turn of the first loop of [compare]:
    [if key in ground_truth_keys:
         true_positives.append((finding, ground_truth_keys[key]))
     else: false_positives.append(finding)] *)
Definition scan_step (ground_truth_keys : PyDict.t Finding)
    (acc : list (Finding * Finding) * list Finding)
    (item : string * Finding) : list (Finding * Finding) * list Finding :=
  let '(true_positives, false_positives) := acc in
  let '(key, finding) := item in
  if PyDict.mem ground_truth_keys key then
    match PyDict.lookup ground_truth_keys key with
    | Some truth => (true_positives ++ [(finding, truth)], false_positives)
    | None => acc
    end
  else (true_positives, false_positives ++ [finding]).

(** One turn of the second loop:
    [if key not in statescan_keys: false_negatives.append(finding)] *)
Definition miss_step (statescan_keys : PyDict.t Finding)
    (false_negatives : list Finding) (item : string * Finding)
    : list Finding :=
  let '(key, finding) := item in
  if negb (PyDict.mem statescan_keys key) then false_negatives ++ [finding]
  else false_negatives.

Definition compare (statescan_findings ground_truth : list Finding)
    : list (Finding * Finding) * list Finding * list Finding :=
  let statescan_keys := key_dict statescan_findings in
  let ground_truth_keys := key_dict ground_truth in
  let '(true_positives, false_positives) :=
    fold_left (scan_step ground_truth_keys) (PyDict.items statescan_keys)
              ([], []) in
  let false_negatives :=
    fold_left (miss_step statescan_keys) (PyDict.items ground_truth_keys)
              [] in
  (true_positives, false_positives, false_negatives).

Definition matched (r : list (Finding * Finding) * list Finding * list Finding)
  := fst (fst r).
Definition aOnly (r : list (Finding * Finding) * list Finding * list Finding)
  := snd (fst r).
Definition bOnly (r : list (Finding * Finding) * list Finding * list Finding)
  := snd r.

(** ** Categorizer *)

(** The [if]/[elif] chain of [categorize_by_type] on one [field_type]; the
    result is the key under which the finding is filed. *)
Definition category_of (field_type : string) : string :=
  if contains "ThreadLocal" field_type || contains "FastThreadLocal" field_type
  then "ThreadLocal"
  else if contains "Counter" field_type || contains "Gauge" field_type
          || contains "Histogram" field_type || contains "Summary" field_type
  then "Metrics"
  else if contains "Cache" field_type || contains "LoadingCache" field_type
  then "Cache"
  else if contains "Map" field_type || contains "HashMap" field_type
          || contains "ConcurrentHashMap" field_type
  then "Map"
  else if contains "List" field_type || contains "ArrayList" field_type
  then "List"
  else if contains "Set" field_type then "Set"
  else if contains "Atomic" field_type then "Atomic"
  else if contains "Recorder" field_type then "Recorder"
  else "Other".

(** [categories[label].append(f)] on a [defaultdict(list)]: a label that is
    missing is first inserted with the empty list. *)
Definition defaultdict_append (categories : PyDict.t (list Finding))
    (label : string) (f : Finding) : PyDict.t (list Finding) :=
  match PyDict.lookup categories label with
  | Some bucket => PyDict.set categories label (bucket ++ [f])
  | None => PyDict.set categories label ([] ++ [f])
  end.

Definition categorize_by_type (findings : list Finding)
    : PyDict.t (list Finding) :=
  fold_left
    (fun categories f =>
       let field_type := get fieldType f "" in
       defaultdict_append categories (category_of field_type) f)
    findings (PyDict.empty (list Finding)).

(** Reading a bucket of the result; a label never filed under is empty. *)
Definition bucket (categories : PyDict.t (list Finding)) (label : string)
    : list Finding :=
  match PyDict.lookup categories label with
  | Some l => l
  | None => []
  end.

(** The ordered predicate list of the design, as data: the needles of each
    predicate and its label, tried from the top; [Other] when none matches. *)
Definition category_table : list (list string * string) :=
  [ (["ThreadLocal"; "FastThreadLocal"], "ThreadLocal");
    (["Counter"; "Gauge"; "Histogram"; "Summary"], "Metrics");
    (["Cache"; "LoadingCache"], "Cache");
    (["Map"; "HashMap"; "ConcurrentHashMap"], "Map");
    (["List"; "ArrayList"], "List");
    (["Set"], "Set");
    (["Atomic"], "Atomic");
    (["Recorder"], "Recorder") ].

Fixpoint first_match (table : list (list string * string))
    (field_type : string) : string :=
  match table with
  | [] => "Other"
  | (needles, label) :: rest =>
      if existsb (fun needle => contains needle field_type) needles
      then label
      else first_match rest field_type
  end.

(** ** MetricsCalculator *)

(** The numbers of the metric formulas: Python [int] and [float]. *)
Inductive pynum : Type :=
| PyInt (n : Z)
| PyFloat (x : spec_float).

(** [float(n)]: the integer rounded to the nearest binary64, ties to even. *)
Definition float_of_int (n : Z) : spec_float :=
  binary_normalize prec emax n 0 false.

Definition to_float (a : pynum) : spec_float :=
  match a with
  | PyInt n => float_of_int n
  | PyFloat x => x
  end.

(** An integer as an exact, unrounded floating-point datum. *)
Definition exact_of_int (n : Z) : spec_float :=
  match n with
  | Z0 => S754_zero false
  | Zpos p => S754_finite false p 0
  | Zneg p => S754_finite true p 0
  end.

(** [m / n] on two [int]s: the quotient of the integers, rounded once. *)
Definition int_truediv (m n : Z) : spec_float :=
  SFdiv prec emax (exact_of_int m) (exact_of_int n).

Definition float_is_zero (x : spec_float) : bool :=
  match x with
  | S754_zero _ => true
  | _ => false
  end.

(** [a + b] and [a * b]: exact on two [int]s, binary64 otherwise. *)
Definition py_add (a b : pynum) : pynum :=
  match a, b with
  | PyInt m, PyInt n => PyInt (m + n)
  | _, _ => PyFloat (SF64add (to_float a) (to_float b))
  end.

Definition py_mul (a b : pynum) : pynum :=
  match a, b with
  | PyInt m, PyInt n => PyInt (m * n)
  | _, _ => PyFloat (SF64mul (to_float a) (to_float b))
  end.

(** [a / b]; [None] is [ZeroDivisionError]. *)
Definition py_truediv (a b : pynum) : option pynum :=
  match a, b with
  | PyInt m, PyInt n =>
      if (n =? 0)%Z then None else Some (PyFloat (int_truediv m n))
  | _, _ =>
      if float_is_zero (to_float b) then None
      else Some (PyFloat (SF64div (to_float a) (to_float b)))
  end.

(** [a > b]; a comparison with a NaN is [False]. *)
Definition py_gt (a b : pynum) : bool :=
  match a, b with
  | PyInt m, PyInt n => (n <? m)%Z
  | _, _ => SFltb (to_float b) (to_float a)
  end.

(** [a == b] *)
Definition py_eq (a b : pynum) : bool :=
  match a, b with
  | PyInt m, PyInt n => (m =? n)%Z
  | _, _ => SFeqb (to_float a) (to_float b)
  end.

Definition len {A : Type} (l : list A) : pynum := PyInt (Z.of_nat (List.length l)).

Definition bind {A B : Type} (x : option A) (k : A -> option B) : option B :=
  match x with
  | Some a => k a
  | None => None
  end.

Notation "x <- e ;; k" := (bind e (fun x => k))
  (at level 61, e at next level, right associativity).

(** The three assignments of [main] that follow the call of [compare]:
    [precision = len(tp) / (len(tp) + len(fp)) if (len(tp) + len(fp)) > 0 else 0]
    [recall = len(tp) / (len(tp) + len(fn)) if (len(tp) + len(fn)) > 0 else 0]
    [f1 = 2 * precision * recall / (precision + recall)
          if (precision + recall) > 0 else 0] *)
Definition compute_metrics (tp : list (Finding * Finding))
    (fp fn : list Finding) : option (pynum * pynum * pynum) :=
  precision <-
    (if py_gt (py_add (len tp) (len fp)) (PyInt 0)
     then py_truediv (len tp) (py_add (len tp) (len fp))
     else Some (PyInt 0)) ;;
  recall <-
    (if py_gt (py_add (len tp) (len fn)) (PyInt 0)
     then py_truediv (len tp) (py_add (len tp) (len fn))
     else Some (PyInt 0)) ;;
  f1 <-
    (if py_gt (py_add precision recall) (PyInt 0)
     then py_truediv (py_mul (py_mul (PyInt 2) precision) recall)
                     (py_add precision recall)
     else Some (PyInt 0)) ;;
  Some (precision, recall, f1).

(** [tp, fp, fn = compare(statescan, ground_truth)] followed by the metrics. *)
Definition metrics_of (statescan ground_truth : list Finding)
    : option (pynum * pynum * pynum) :=
  let '(tp, fp, fn) := compare statescan ground_truth in
  compute_metrics tp fp fn.

(** ** Specification-side notions *)

(** [k] is the comparison key of some finding of [l]. *)
Definition has_key (l : list Finding) (k : string) : bool :=
  existsb (fun f => String.eqb (create_key f) k) l.

(** The last finding of [l] whose comparison key is [k]. *)
Definition last_with_key (k : string) (l : list Finding) : option Finding :=
  find (fun f => String.eqb (create_key f) k) (rev l).

(** The keys of [l] in the order in which each is met for the first time,
    [seen] being the keys met before [l]. *)
Fixpoint first_occurrences_from (seen l : list string) : list string :=
  match l with
  | [] => []
  | k :: rest =>
      if existsb (String.eqb k) seen then first_occurrences_from seen rest
      else k :: first_occurrences_from (k :: seen) rest
  end.

Definition first_occurrences (l : list string) : list string :=
  first_occurrences_from [] l.

(** The number of distinct comparison keys of a collection. *)
Definition distinct_keys (l : list Finding) : nat :=
  List.length (nodup string_dec (map create_key l)).

(** No two findings of [l] share a comparison key. *)
Definition unique_keys (l : list Finding) : Prop :=
  NoDup (map create_key l).

(** The three loops of [compare] in closed form: what each list holds once
    the loop has run over [items]. *)
Definition pairs_of (ground_truth_keys : PyDict.t Finding)
    (items : list (string * Finding)) : list (Finding * Finding) :=
  flat_map
    (fun item =>
       match PyDict.lookup ground_truth_keys (fst item) with
       | Some truth => [(snd item, truth)]
       | None => []
       end)
    items.

Definition absent_from (other : PyDict.t Finding)
    (items : list (string * Finding)) : list Finding :=
  map snd (filter (fun item => negb (PyDict.mem other (fst item))) items).

(** The metrics in the words of the design: a ratio of two sizes is [0] when
    its denominator is [0], and F1 is [0] when [precision + recall] is. *)
Definition spec_ratio (num den : nat) : pynum :=
  if Nat.eqb den 0 then PyInt 0
  else PyFloat (int_truediv (Z.of_nat num) (Z.of_nat den)).

Definition spec_f1 (precision recall : pynum) : pynum :=
  if py_eq (py_add precision recall) (PyInt 0) then PyInt 0
  else PyFloat (SF64div (to_float (py_mul (py_mul (PyInt 2) precision) recall))
                        (to_float (py_add precision recall))).

Definition spec_metrics (n_matched n_aOnly n_bOnly : nat)
    : pynum * pynum * pynum :=
  let precision := spec_ratio n_matched (n_matched + n_aOnly) in
  let recall := spec_ratio n_matched (n_matched + n_bOnly) in
  (precision, recall, spec_f1 precision recall).

(** A float that is neither a NaN nor below zero. *)
Definition nonneg_float (x : spec_float) : bool :=
  match x with
  | S754_zero _ => true
  | S754_infinity s => negb s
  | S754_finite s _ _ => negb s
  | S754_nan => false
  end.

(** What a precision or a recall can be: the integer [0] of the guarded
    branch, or a float that is not a NaN and not below zero. *)
Definition ratio_like (a : pynum) : Prop :=
  match a with
  | PyInt n => n = 0%Z
  | PyFloat x => nonneg_float x = true
  end.

(** ** The loader and the report of [main] *)

(** [load_statescan_output] once [json.load] has returned: [data_findings] is
    the ['findings'] entry of the parsed object, [None] when it has none
    ([data.get('findings', [])]).  Every dict of the result also gets a
    ['raw'] entry, which neither script reads and the record does not hold. *)
Definition load_statescan_output (data_findings : option (list Finding))
    : list Finding :=
  fold_left
    (fun findings f =>
       findings ++ [ {| className := Some (get className f "");
                        fieldName := Some (get fieldName f "");
                        fieldType := Some (get fieldType f "");
                        pattern := Some (get pattern f "");
                        riskLevel := Some (get riskLevel f "") |} ])
    (match data_findings with
     | Some l => l
     | None => []
     end)
    [].

(** [sorted(items, key=key)] with integer keys.  Python's sort is stable, so
    its result is fixed by the keys and the input order; this is the stable
    insertion sort, which puts an entry in front of the later entries whose
    key is not smaller. *)
Fixpoint insert_by (X : Type) (key : X -> Z) (x : X) (l : list X) : list X :=
  match l with
  | [] => [x]
  | y :: rest =>
      if (key x <=? key y)%Z then x :: y :: rest
      else y :: insert_by key x rest
  end.

Definition sorted (X : Type) (key : X -> Z) (items : list X) : list X :=
  fold_right (insert_by key) [] items.

(** [sorted(fp_cats.items(), key=lambda x: -len(x[1]))] of [compare-v7.py]. *)
Definition rank_categories (cats : PyDict.t (list Finding))
    : list (string * list Finding) :=
  sorted (fun x => (- Z.of_nat (List.length (snd x)))%Z) (PyDict.items cats).

(** [sorted(by_module.items(), key=lambda x: -x[1])] of [compare.py]. *)
Definition rank_modules (by_module : PyDict.t Z) : list (string * Z) :=
  sorted (fun x => (- snd x)%Z) (PyDict.items by_module).

(** [s.split(sep)] for a one-character [sep]: the pieces between the
    separators, empty pieces included; never an empty list. *)
Fixpoint split (sep : ascii) (s : string) : list string :=
  match s with
  | EmptyString => [EmptyString]
  | String c rest =>
      if Ascii.eqb c sep then EmptyString :: split sep rest
      else match split sep rest with
           | [] => [String c EmptyString]
           | piece :: pieces => String c piece :: pieces
           end
  end.

(** [x in parts] on a list of strings. *)
Definition list_in (x : string) (parts : list string) : bool :=
  existsb (String.eqb x) parts.

(** [parts.index(x)]; [None] is [ValueError]. *)
Fixpoint index (x : string) (parts : list string) : option nat :=
  match parts with
  | [] => None
  | y :: rest =>
      if String.eqb y x then Some 0
      else match index x rest with
           | Some i => Some (S i)
           | None => None
           end
  end.

(** [by_module[k] += 1] on a [defaultdict(int)]. *)
Definition defaultdict_incr (by_module : PyDict.t Z) (k : string)
    : PyDict.t Z :=
  match PyDict.lookup by_module k with
  | Some n => PyDict.set by_module k (n + 1)%Z
  | None => PyDict.set by_module k (0 + 1)%Z
  end.

(** One turn of the last loop of [main] in [compare.py]; [None] is an
    exception ([KeyError] of [f['className']]).
    [cls = f['className']; parts = cls.split('.')]
    [if 'pulsar' in parts:
         idx = parts.index('pulsar')
         if idx + 1 < len(parts): by_module[parts[idx + 1]] += 1
     elif 'bookkeeper' in parts: by_module['bookkeeper'] += 1] *)
Definition by_module_step (by_module : PyDict.t Z) (f : Finding)
    : option (PyDict.t Z) :=
  match className f with
  | None => None
  | Some cls =>
      let parts := split "."%char cls in
      if list_in "pulsar" parts then
        match index "pulsar" parts with
        | None => None
        | Some idx =>
            if Nat.ltb (idx + 1) (List.length parts) then
              match nth_error parts (idx + 1) with
              | Some module => Some (defaultdict_incr by_module module)
              | None => None
              end
            else Some by_module
        end
      else if list_in "bookkeeper" parts then
        Some (defaultdict_incr by_module "bookkeeper")
      else Some by_module
  end.

Definition count_by_module (ground_truth : list Finding)
    : option (PyDict.t Z) :=
  fold_left (fun acc f => by_module <- acc ;; by_module_step by_module f)
            ground_truth (Some (PyDict.empty Z)).

(** The grouping of the false positives in both scripts:
    [for f in fp: by_class[f['className']].append(f)]; [None] is the
    [KeyError] of [f['className']]. *)
Definition group_by_class (fp : list Finding)
    : option (PyDict.t (list Finding)) :=
  fold_left
    (fun acc f =>
       by_class <- acc ;;
       match className f with
       | Some cls => Some (defaultdict_append by_class cls f)
       | None => None
       end)
    fp (Some (PyDict.empty (list Finding))).

(** The module that [by_module_step] counts a class name under, if any. *)
Definition module_of (cls : string) : option string :=
  let parts := split "."%char cls in
  if list_in "pulsar" parts then
    match index "pulsar" parts with
    | Some idx => nth_error parts (idx + 1)
    | None => None
    end
  else if list_in "bookkeeper" parts then Some "bookkeeper"
  else None.

(** The chain of [category_of] with the first needle of each test only. *)
Definition category_of_first_needles (field_type : string) : string :=
  if contains "ThreadLocal" field_type then "ThreadLocal"
  else if contains "Counter" field_type || contains "Gauge" field_type
          || contains "Histogram" field_type || contains "Summary" field_type
  then "Metrics"
  else if contains "Cache" field_type then "Cache"
  else if contains "Map" field_type then "Map"
  else if contains "List" field_type then "List"
  else if contains "Set" field_type then "Set"
  else if contains "Atomic" field_type then "Atomic"
  else if contains "Recorder" field_type then "Recorder"
  else "Other".

(** The label a finding is filed under. *)
Definition label_of (f : Finding) : string :=
  category_of (get fieldType f "").

(** What [load_statescan_output] makes of one raw finding. *)
Definition filled (f : Finding) : Finding :=
  {| className := Some (get className f "");
     fieldName := Some (get fieldName f "");
     fieldType := Some (get fieldType f "");
     pattern := Some (get pattern f "");
     riskLevel := Some (get riskLevel f "") |}.

(** All five entries of a finding are present. *)
Definition complete (f : Finding) : Prop :=
  className f <> None /\ fieldName f <> None /\ fieldType f <> None
  /\ pattern f <> None /\ riskLevel f <> None.

(** [f] is counted under module [m]. *)
Definition counted_under (m : string) (f : Finding) : bool :=
  match className f with
  | Some cls =>
      match module_of cls with
      | Some m' => String.eqb m' m
      | None => false
      end
  | None => false
  end.

(** [by_module[m]] read without inserting: [0] for a module never counted. *)
Definition count_of (by_module : PyDict.t Z) (m : string) : Z :=
  match PyDict.lookup by_module m with
  | Some n => n
  | None => 0%Z
  end.

(** [str(n)] for a length: its decimal digits. *)
Definition str_of_nat (n : nat) : string :=
  NilEmpty.string_of_uint (Nat.to_uint n).

(** [s * n]: [n] copies of [s]. *)
Fixpoint repeat_string (s : string) (n : nat) : string :=
  match n with
  | 0 => EmptyString
  | S n' => (s ++ repeat_string s n')%string
  end.

(** One turn of the loop that shows the false negatives in [compare-v7.py]:
    the three lines for [f] are added to the lines printed so far; [None] is
    the [KeyError] of [f['className']] or [f['fieldName']], raised before the
    first of the three is printed.
    [print(f"  {f['className']}::{f['fieldName']}")]
    [print(f"    Type: {f.get('fieldType', 'N/A')}")]
    [print(f"    Pattern: {f.get('pattern', 'N/A')}")] *)
Definition show_false_negative (printed : list string) (f : Finding)
    : option (list string) :=
  match className f, fieldName f with
  | Some class_name, Some field_name =>
      Some (printed
            ++ [ ("  " ++ class_name ++ "::" ++ field_name)%string;
                 ("    Type: " ++ get fieldType f "N/A")%string;
                 ("    Pattern: " ++ get pattern f "N/A")%string ])
  | _, _ => None
  end.

(** The block of [main] in [compare-v7.py] that shows the false negatives;
    the result is the lines printed when no exception is raised.
    [if fn:
         print("=" * 70)
         print(f"FALSE NEGATIVES ({len(fn)} missed by state-scan)")
         print("=" * 70)
         for f in fn[:15]: ...
         if len(fn) > 15: print(f"  ... and {len(fn) - 15} more")
         print()] *)
Definition show_false_negatives (fn : list Finding) : option (list string) :=
  match fn with
  | [] => Some []
  | _ :: _ =>
      let header :=
        [ repeat_string "=" 70;
          ("FALSE NEGATIVES (" ++ str_of_nat (List.length fn)
           ++ " missed by state-scan)")%string;
          repeat_string "=" 70 ] in
      printed <-
        fold_left (fun acc f => printed <- acc ;; show_false_negative printed f)
                  (firstn 15 fn) (Some header) ;;
      let printed :=
        if Nat.ltb 15 (List.length fn)
        then printed
             ++ [ ("  ... and " ++ str_of_nat (List.length fn - 15)
                   ++ " more")%string ]
        else printed in
      Some (printed ++ [EmptyString])
  end.

(** The float [1.0]. *)
Definition float_one : spec_float := S754_finite false 4503599627370496 (-52).

(** ** Findings with entries of any JSON type

    [json.load] gives a finding whatever the file holds: an entry that is
    present can be a string, but also [null], a number, a boolean, a list or
    an object.  [load_ground_truth] hands such findings to [compare] as they
    are.  The record above has strings only; this module reads the same
    source lines on findings whose entries can be of any JSON type. *)

Module Untyped.

(** The value of an entry: a string, or a value of another JSON type, of
    which the text that [str()] gives is kept (["None"] for [null]). *)
Inductive value : Type :=
| Str (s : string)
| NotStr (text : string).

Record Finding : Type := mkFinding {
  className : option value;
  fieldName : option value;
  fieldType : option value;
  pattern   : option value;
  riskLevel : option value
}.

(** [finding.get(field, default)] with a string default. *)
Definition get (field : Finding -> option value) (finding : Finding)
    (default : string) : value :=
  match field finding with
  | Some v => v
  | None => Str default
  end.

(** [name.replace('$', '.')]: only a string has the method; [None] is the
    [AttributeError] raised for any other value. *)
Definition normalize_class_name (name : value) : option string :=
  match name with
  | Str s => Some (replace_char "$"%char "."%char s)
  | NotStr _ => None
  end.

(** The text of a value inside an f-string. *)
Definition format (v : value) : string :=
  match v with
  | Str s => s
  | NotStr text => text
  end.

(** [class_name = normalize_class_name(finding.get('className', ''))],
    [field_name = finding.get('fieldName', '')],
    [return f"{class_name}::{field_name}"]; [None] is an exception. *)
Definition create_key (finding : Finding) : option string :=
  class_name <- normalize_class_name (get className finding "") ;;
  let field_name := get fieldName finding "" in
  Some (class_name ++ "::" ++ format field_name)%string.

(** [{create_key(f): f for f in findings}]; the first key that raises ends
    the comprehension. *)
Definition key_dict (findings : list Finding) : option (PyDict.t Finding) :=
  fold_left
    (fun acc f =>
       d <- acc ;;
       key <- create_key f ;;
       Some (PyDict.set d key f))
    findings (Some (PyDict.empty Finding)).

Definition scan_step (ground_truth_keys : PyDict.t Finding)
    (acc : list (Finding * Finding) * list Finding)
    (item : string * Finding) : list (Finding * Finding) * list Finding :=
  let '(true_positives, false_positives) := acc in
  let '(key, finding) := item in
  if PyDict.mem ground_truth_keys key then
    match PyDict.lookup ground_truth_keys key with
    | Some truth => (true_positives ++ [(finding, truth)], false_positives)
    | None => acc
    end
  else (true_positives, false_positives ++ [finding]).

Definition miss_step (statescan_keys : PyDict.t Finding)
    (false_negatives : list Finding) (item : string * Finding)
    : list Finding :=
  let '(key, finding) := item in
  if negb (PyDict.mem statescan_keys key) then false_negatives ++ [finding]
  else false_negatives.

(** [compare]; [None] is the exception of a key that could not be built. *)
Definition compare (statescan_findings ground_truth : list Finding)
    : option (list (Finding * Finding) * list Finding * list Finding) :=
  statescan_keys <- key_dict statescan_findings ;;
  ground_truth_keys <- key_dict ground_truth ;;
  let '(true_positives, false_positives) :=
    fold_left (scan_step ground_truth_keys) (PyDict.items statescan_keys)
              ([], []) in
  let false_negatives :=
    fold_left (miss_step statescan_keys) (PyDict.items ground_truth_keys)
              [] in
  Some (true_positives, false_positives, false_negatives).

(** The [className] entry is present and is not a string. *)
Definition class_not_str (f : Finding) : Prop :=
  exists text, className f = Some (NotStr text).

End Untyped.

(** A finding with string entries as a finding of the wider type. *)
Definition untyped_of (f : Finding) : Untyped.Finding :=
  {| Untyped.className := option_map Untyped.Str (className f);
     Untyped.fieldName := option_map Untyped.Str (fieldName f);
     Untyped.fieldType := option_map Untyped.Str (fieldType f);
     Untyped.pattern := option_map Untyped.Str (pattern f);
     Untyped.riskLevel := option_map Untyped.Str (riskLevel f) |}.

(** The lines that the display of the false negatives prints for one
    finding, and the whole display of a list, when nothing raises. *)
Definition finding_lines (f : Finding) : list string :=
  [ ("  " ++ get className f "" ++ "::" ++ get fieldName f "")%string;
    ("    Type: " ++ get fieldType f "N/A")%string;
    ("    Pattern: " ++ get pattern f "N/A")%string ].

Definition display_lines (fn : list Finding) : list string :=
  match fn with
  | [] => []
  | _ :: _ =>
      [ repeat_string "=" 70;
        ("FALSE NEGATIVES (" ++ str_of_nat (List.length fn)
         ++ " missed by state-scan)")%string;
        repeat_string "=" 70 ]
      ++ flat_map finding_lines (firstn 15 fn)
      ++ (if Nat.ltb 15 (List.length fn)
          then [ ("  ... and " ++ str_of_nat (List.length fn - 15)
                  ++ " more")%string ]
          else [])
      ++ [EmptyString]
  end.

(** * Proofs *)

(** ** Strings *)

Lemma replace_char_idem (old new : ascii) (s : string) :
  replace_char old new (replace_char old new s) = replace_char old new s.
Proof.
  induction s as [|c rest IH]; simpl; [reflexivity|].
  rewrite IH. f_equal.
  destruct (Ascii.eqb c old) eqn:Hc.
  - destruct (Ascii.eqb new old); reflexivity.
  - rewrite Hc. reflexivity.
Qed.

(** ** Dictionaries *)

Module PyDictFacts.
Section Facts.
Variable V : Type.
Implicit Types (d : PyDict.t V) (k : string) (v : V).

Lemma mem_In d k : PyDict.mem d k = true <-> In k (PyDict.keys d).
Proof.
  unfold PyDict.mem. induction d as [|[k' v'] rest IH]; simpl.
  - split; [discriminate | tauto].
  - destruct (String.eqb_spec k' k) as [->|Hne].
    + split; auto.
    + rewrite IH. split; [auto | intros [H|H]; [congruence | exact H]].
Qed.

Lemma mem_existsb d k :
  PyDict.mem d k = existsb (String.eqb k) (PyDict.keys d).
Proof.
  unfold PyDict.mem. induction d as [|[k' v'] rest IH]; simpl; auto.
  rewrite (String.eqb_sym k k').
  destruct (String.eqb k' k); simpl; auto.
Qed.

Lemma lookup_set_same d k v : PyDict.lookup (PyDict.set d k v) k = Some v.
Proof.
  induction d as [|[k' v'] rest IH]; simpl.
  - rewrite String.eqb_refl. reflexivity.
  - destruct (String.eqb k' k) eqn:E; simpl; rewrite E; auto.
Qed.

Lemma lookup_set_other d k v k' :
  k <> k' -> PyDict.lookup (PyDict.set d k v) k' = PyDict.lookup d k'.
Proof.
  intros Hne. induction d as [|[k0 v0] rest IH]; simpl.
  - destruct (String.eqb_spec k k'); [congruence | reflexivity].
  - destruct (String.eqb_spec k0 k) as [->|Hk0]; simpl.
    + destruct (String.eqb_spec k k'); [congruence | reflexivity].
    + rewrite IH. reflexivity.
Qed.

Lemma keys_set d k v :
  PyDict.keys (PyDict.set d k v) =
  if PyDict.mem d k then PyDict.keys d else PyDict.keys d ++ [k].
Proof.
  unfold PyDict.mem. induction d as [|[k' v'] rest IH]; simpl; auto.
  destruct (String.eqb k' k) eqn:E; simpl; auto.
  rewrite IH. destruct (PyDict.lookup rest k); reflexivity.
Qed.

(** A property of all entries survives a write of an entry that has it. *)
Lemma Forall_set (P : string * V -> Prop) d k v :
  Forall P d -> P (k, v) -> Forall P (PyDict.set d k v).
Proof.
  intros Hd Hv. induction Hd as [|[k' v'] rest Hx Hrest IH]; simpl.
  - constructor; auto.
  - destruct (String.eqb_spec k' k) as [->|Hne]; constructor; auto.
Qed.

Lemma In_lookup d k v :
  NoDup (PyDict.keys d) -> In (k, v) d -> PyDict.lookup d k = Some v.
Proof.
  induction d as [|[k' v'] rest IH]; simpl; [tauto|].
  intros Hnd [H|H].
  - injection H as -> ->. rewrite String.eqb_refl. reflexivity.
  - inversion Hnd as [|? ? Hnotin Hnd']; subst.
    destruct (String.eqb_spec k' k) as [->|Hne].
    + exfalso. apply Hnotin. apply (in_map fst) in H. exact H.
    + auto.
Qed.

Lemma lookup_In d k v : PyDict.lookup d k = Some v -> In (k, v) d.
Proof.
  induction d as [|[k' v'] rest IH]; simpl; [discriminate|].
  destruct (String.eqb_spec k' k) as [->|Hne].
  - intros H. injection H as ->. auto.
  - auto.
Qed.
End Facts.
End PyDictFacts.

(** ** Keys in the order of their first occurrence *)

Lemma existsb_eqb_In (k : string) (l : list string) :
  existsb (String.eqb k) l = true <-> In k l.
Proof.
  rewrite existsb_exists. split.
  - intros [x [Hx E]]. apply String.eqb_eq in E. subst. exact Hx.
  - intros H. exists k. split; [exact H | apply String.eqb_refl].
Qed.

Lemma existsb_eqb_ext (k : string) (l1 l2 : list string) :
  (In k l1 <-> In k l2) ->
  existsb (String.eqb k) l1 = existsb (String.eqb k) l2.
Proof.
  intros H. apply eq_true_iff_eq. rewrite !existsb_eqb_In. exact H.
Qed.

Lemma first_occurrences_from_snoc (seen l : list string) (x : string) :
  first_occurrences_from seen (l ++ [x]) =
  first_occurrences_from seen l
  ++ (if existsb (String.eqb x) (seen ++ l) then [] else [x]).
Proof.
  revert seen. induction l as [|a l IH]; intros seen; simpl.
  - rewrite app_nil_r. destruct (existsb (String.eqb x) seen); reflexivity.
  - destruct (existsb (String.eqb a) seen) eqn:Ha.
    + rewrite IH. f_equal.
      rewrite (existsb_eqb_ext x (seen ++ l) (seen ++ a :: l)); auto.
      apply existsb_eqb_In in Ha. rewrite !in_app_iff. simpl.
      split; [tauto|]. intros [H|[H|H]]; subst; auto.
    + rewrite IH.
      rewrite (existsb_eqb_ext x ((a :: seen) ++ l) (seen ++ a :: l)).
      * reflexivity.
      * simpl. rewrite !in_app_iff. simpl. tauto.
Qed.

Lemma first_occurrences_from_In (seen l : list string) (k : string) :
  In k (first_occurrences_from seen l) <-> In k l /\ ~ In k seen.
Proof.
  revert seen. induction l as [|a l IH]; intros seen; simpl.
  - tauto.
  - destruct (existsb (String.eqb a) seen) eqn:Ha.
    + apply existsb_eqb_In in Ha. rewrite IH.
      split; [tauto|]. intros [[H|H] Hn]; subst; tauto.
    + assert (Hna : ~ In a seen).
      { intros H. apply existsb_eqb_In in H. congruence. }
      simpl. rewrite IH. simpl.
      destruct (string_dec a k) as [->|Hne]; [tauto|]. tauto.
Qed.

Lemma first_occurrences_from_NoDup (seen l : list string) :
  NoDup (first_occurrences_from seen l).
Proof.
  revert seen. induction l as [|a l IH]; intros seen; simpl.
  - constructor.
  - destruct (existsb (String.eqb a) seen); auto.
    constructor; auto.
    rewrite first_occurrences_from_In. simpl. tauto.
Qed.

Lemma first_occurrences_In (l : list string) (k : string) :
  In k (first_occurrences l) <-> In k l.
Proof. unfold first_occurrences. rewrite first_occurrences_from_In. simpl. tauto. Qed.

Lemma first_occurrences_NoDup (l : list string) : NoDup (first_occurrences l).
Proof. apply first_occurrences_from_NoDup. Qed.

Lemma first_occurrences_snoc (l : list string) (x : string) :
  first_occurrences (l ++ [x]) =
  first_occurrences l
  ++ (if existsb (String.eqb x) (first_occurrences l) then [] else [x]).
Proof.
  unfold first_occurrences. rewrite first_occurrences_from_snoc. simpl.
  f_equal. rewrite (existsb_eqb_ext x l (first_occurrences l)); auto.
  symmetry. apply first_occurrences_In.
Qed.

Lemma first_occurrences_length (l : list string) :
  List.length (first_occurrences l) = List.length (nodup string_dec l).
Proof.
  apply Nat.le_antisymm; apply NoDup_incl_length.
  - apply first_occurrences_NoDup.
  - intros k Hk. apply nodup_In. apply first_occurrences_In, Hk.
  - apply NoDup_nodup.
  - intros k Hk. apply first_occurrences_In. apply nodup_In in Hk. exact Hk.
Qed.

(** ** The dictionary of a collection *)

Lemma key_dict_snoc (l : list Finding) (f : Finding) :
  key_dict (l ++ [f]) = PyDict.set (key_dict l) (create_key f) f.
Proof. unfold key_dict. rewrite fold_left_app. reflexivity. Qed.

Lemma keys_key_dict (l : list Finding) :
  PyDict.keys (key_dict l) = first_occurrences (map create_key l).
Proof.
  induction l as [|f l IH] using rev_ind; [reflexivity|].
  rewrite key_dict_snoc, PyDictFacts.keys_set, map_app. simpl.
  rewrite first_occurrences_snoc, PyDictFacts.mem_existsb, IH.
  destruct (existsb _ _); [rewrite app_nil_r|]; reflexivity.
Qed.

Lemma key_dict_NoDup (l : list Finding) : NoDup (PyDict.keys (key_dict l)).
Proof. rewrite keys_key_dict. apply first_occurrences_NoDup. Qed.

Lemma lookup_key_dict (l : list Finding) (k : string) :
  PyDict.lookup (key_dict l) k = last_with_key k l.
Proof.
  unfold last_with_key.
  induction l as [|f l IH] using rev_ind; [reflexivity|].
  rewrite key_dict_snoc, rev_app_distr. simpl.
  destruct (String.eqb_spec (create_key f) k) as [<-|Hne].
  - apply PyDictFacts.lookup_set_same.
  - rewrite PyDictFacts.lookup_set_other; auto.
Qed.

Lemma has_key_In (l : list Finding) (k : string) :
  has_key l k = true <-> In k (map create_key l).
Proof.
  unfold has_key. rewrite existsb_exists, in_map_iff.
  split; intros [f [H1 H2]]; exists f.
  - apply String.eqb_eq in H2. auto.
  - split; [tauto|]. apply String.eqb_eq. tauto.
Qed.

Lemma mem_key_dict (l : list Finding) (k : string) :
  PyDict.mem (key_dict l) k = has_key l k.
Proof.
  apply eq_true_iff_eq.
  rewrite PyDictFacts.mem_In, keys_key_dict, first_occurrences_In, has_key_In.
  tauto.
Qed.

(** Every entry of the dictionary is filed under the key of its finding. *)
Lemma key_dict_keyed (l : list Finding) :
  Forall (fun item => fst item = create_key (snd item)) (key_dict l).
Proof.
  induction l as [|f l IH] using rev_ind; [constructor|].
  rewrite key_dict_snoc. apply PyDictFacts.Forall_set; auto.
Qed.

(** ** The loops of [compare] *)

Lemma scan_loop (gt : PyDict.t Finding) (items : list (string * Finding))
    (tp0 : list (Finding * Finding)) (fp0 : list Finding) :
  fold_left (scan_step gt) items (tp0, fp0) =
  (tp0 ++ pairs_of gt items, fp0 ++ absent_from gt items).
Proof.
  revert tp0 fp0. induction items as [|[k f] items IH]; intros tp0 fp0.
  - simpl. rewrite !app_nil_r. reflexivity.
  - change (fold_left (scan_step gt) ((k, f) :: items) (tp0, fp0))
      with (fold_left (scan_step gt) items (scan_step gt (tp0, fp0) (k, f))).
    unfold scan_step at 2, pairs_of, absent_from, PyDict.mem. simpl.
    destruct (PyDict.lookup gt k) as [g|] eqn:E; simpl; rewrite IH;
      unfold pairs_of, absent_from, PyDict.mem;
      rewrite <- !app_assoc; reflexivity.
Qed.

Lemma miss_loop (ss : PyDict.t Finding) (items : list (string * Finding))
    (fn0 : list Finding) :
  fold_left (miss_step ss) items fn0 = fn0 ++ absent_from ss items.
Proof.
  revert fn0. induction items as [|[k f] items IH]; intros fn0.
  - simpl. rewrite app_nil_r. reflexivity.
  - simpl fold_left. rewrite IH. unfold miss_step, absent_from. simpl.
    destruct (PyDict.mem ss k); simpl; rewrite <- ?app_assoc; reflexivity.
Qed.

Lemma compare_closed_form (A B : list Finding) :
  compare A B =
  (pairs_of (key_dict B) (key_dict A),
   absent_from (key_dict B) (key_dict A),
   absent_from (key_dict A) (key_dict B)).
Proof.
  unfold compare, PyDict.items. rewrite scan_loop, miss_loop. reflexivity.
Qed.

Lemma filter_fst_keys (V : Type) (p : string -> bool) (d : PyDict.t V) :
  map fst (filter (fun item => p (fst item)) d) = filter p (PyDict.keys d).
Proof.
  unfold PyDict.keys. induction d as [|[k v] d IH]; simpl; auto.
  destruct (p k); simpl; rewrite IH; reflexivity.
Qed.

Lemma pairs_of_keys (gt : PyDict.t Finding) (items : list (string * Finding)) :
  map (fun p => create_key (fst p)) (pairs_of gt items) =
  map (fun item => create_key (snd item))
      (filter (fun item => PyDict.mem gt (fst item)) items).
Proof.
  unfold pairs_of, PyDict.mem.
  induction items as [|[k f] items IH]; simpl; auto.
  destruct (PyDict.lookup gt k); simpl; rewrite IH; reflexivity.
Qed.

Lemma keyed_map (items : list (string * Finding)) :
  Forall (fun item => fst item = create_key (snd item)) items ->
  map (fun item => create_key (snd item)) items = map fst items.
Proof.
  induction 1 as [|x l Hx Hl IH]; simpl; auto. rewrite IH, Hx. reflexivity.
Qed.

Lemma Forall_filter_keep (X : Type) (P : X -> Prop) (p : X -> bool) (l : list X) :
  Forall P l -> Forall P (filter p l).
Proof.
  induction 1 as [|x l Hx Hl IH]; simpl; auto.
  destruct (p x); auto.
Qed.

Lemma pairs_length (gt : PyDict.t Finding) (items : list (string * Finding)) :
  List.length (pairs_of gt items) =
  List.length (filter (fun k => PyDict.mem gt k) (PyDict.keys items)).
Proof.
  unfold pairs_of, PyDict.mem, PyDict.keys.
  induction items as [|[k f] items IH]; simpl; auto.
  destruct (PyDict.lookup gt k); simpl; rewrite IH; reflexivity.
Qed.

Lemma absent_length (other : PyDict.t Finding)
    (items : list (string * Finding)) :
  List.length (absent_from other items) =
  List.length (filter (fun k => negb (PyDict.mem other k)) (PyDict.keys items)).
Proof.
  unfold absent_from. rewrite length_map, <- (length_map fst).
  rewrite (filter_fst_keys (fun k => negb (PyDict.mem other k))). reflexivity.
Qed.

Lemma filter_split_length (X : Type) (p : X -> bool) (l : list X) :
  List.length (filter p l) + List.length (filter (fun x => negb (p x)) l)
  = List.length l.
Proof.
  induction l as [|x l IH]; simpl; auto.
  destruct (p x); simpl; lia.
Qed.

(** Two repetition-free lists have as many elements of the one in the other
    as of the other in the one. *)
Lemma common_length (l1 l2 : list string) (p1 p2 : string -> bool) :
  NoDup l1 -> NoDup l2 ->
  (forall k, p1 k = true <-> In k l1) ->
  (forall k, p2 k = true <-> In k l2) ->
  List.length (filter p2 l1) = List.length (filter p1 l2).
Proof.
  intros H1 H2 Hp1 Hp2.
  apply Nat.le_antisymm; apply NoDup_incl_length;
    try (apply NoDup_filter; assumption);
    intros k Hk; apply filter_In in Hk; destruct Hk as [Hin Hp];
    apply filter_In; split;
    try (apply Hp1; exact Hin); try (apply Hp2; exact Hin);
    try (apply Hp1 in Hp; exact Hp); try (apply Hp2 in Hp; exact Hp).
Qed.

Lemma compare_sizes (A B : list Finding) :
  List.length (matched (compare A B)) + List.length (aOnly (compare A B))
  = List.length (key_dict A)
  /\ List.length (matched (compare A B)) + List.length (bOnly (compare A B))
     = List.length (key_dict B).
Proof.
  rewrite compare_closed_form. unfold matched, aOnly, bOnly. simpl.
  rewrite !pairs_length, !absent_length. split.
  - rewrite filter_split_length. unfold PyDict.keys. apply length_map.
  - rewrite (common_length (fun k => PyDict.mem (key_dict A) k)
               (fun k => PyDict.mem (key_dict B) k)
               (key_dict_NoDup A) (key_dict_NoDup B)).
    + rewrite filter_split_length. unfold PyDict.keys. apply length_map.
    + intros k. apply PyDictFacts.mem_In.
    + intros k. apply PyDictFacts.mem_In.
Qed.

Lemma key_dict_length (A : list Finding) :
  List.length (key_dict A) = distinct_keys A.
Proof.
  unfold distinct_keys. rewrite <- first_occurrences_length, <- keys_key_dict.
  unfold PyDict.keys. symmetry. apply length_map.
Qed.

Lemma distinct_keys_le (A : list Finding) : distinct_keys A <= List.length A.
Proof.
  unfold distinct_keys. rewrite <- (length_map create_key A).
  apply NoDup_incl_length; [apply NoDup_nodup|].
  intros k Hk. apply nodup_In in Hk. exact Hk.
Qed.

Lemma distinct_keys_full (A : list Finding) :
  distinct_keys A = List.length A <-> unique_keys A.
Proof.
  unfold distinct_keys, unique_keys. split.
  - intros H.
    apply (NoDup_incl_NoDup (NoDup_nodup string_dec (map create_key A))).
    + rewrite H, length_map. auto.
    + intros k Hk. apply nodup_In in Hk. exact Hk.
  - intros H. rewrite (nodup_fixed_point string_dec H). apply length_map.
Qed.

Lemma key_dict_items (A : list Finding) :
  Forall (fun item => fst item = create_key (snd item)
                      /\ last_with_key (fst item) A = Some (snd item))
         (key_dict A).
Proof.
  apply Forall_forall. intros [k f] Hin. simpl. split.
  - pose proof (key_dict_keyed A) as H.
    rewrite Forall_forall in H. apply (H _ Hin).
  - rewrite <- lookup_key_dict.
    apply PyDictFacts.In_lookup; [apply key_dict_NoDup | exact Hin].
Qed.

Lemma absent_from_keys (other : PyDict.t Finding) (A : list Finding) :
  map create_key (absent_from other (key_dict A)) =
  filter (fun k => negb (PyDict.mem other k))
         (first_occurrences (map create_key A)).
Proof.
  unfold absent_from. rewrite map_map, keyed_map.
  - rewrite (filter_fst_keys (fun k => negb (PyDict.mem other k))).
    rewrite keys_key_dict. reflexivity.
  - apply Forall_filter_keep, key_dict_keyed.
Qed.

Lemma absent_from_self (A : list Finding) :
  absent_from (key_dict A) (key_dict A) = [].
Proof.
  unfold absent_from.
  assert (H : forall d : PyDict.t Finding,
             incl d (key_dict A) ->
             filter (fun item => negb (PyDict.mem (key_dict A) (fst item))) d
             = []).
  { induction d as [|[k f] d IH]; intros Hincl; simpl; auto.
    assert (Hm : PyDict.mem (key_dict A) k = true).
    { apply PyDictFacts.mem_In. apply (in_map fst _ (k, f)).
      apply Hincl. simpl. auto. }
    rewrite Hm. simpl. apply IH. intros x Hx. apply Hincl. simpl. auto. }
  rewrite H; [reflexivity | apply incl_refl].
Qed.

Lemma pairs_of_last (A B : list Finding) :
  Forall (fun p => last_with_key (create_key (fst p)) A = Some (fst p)
                   /\ last_with_key (create_key (fst p)) B = Some (snd p))
         (pairs_of (key_dict B) (key_dict A)).
Proof.
  unfold pairs_of. apply Forall_flat_map.
  pose proof (key_dict_items A) as H.
  induction H as [|[k f] d [Hk Hlast] Hd IH]; constructor; auto.
  simpl in *. destruct (PyDict.lookup (key_dict B) k) as [g|] eqn:E.
  - constructor; [|constructor]. simpl. subst k. split; [exact Hlast|].
    rewrite <- lookup_key_dict. exact E.
  - constructor.
Qed.

Lemma absent_from_last (other : PyDict.t Finding) (A : list Finding) :
  Forall (fun a => last_with_key (create_key a) A = Some a)
         (absent_from other (key_dict A)).
Proof.
  unfold absent_from. apply Forall_map. apply Forall_filter_keep.
  eapply Forall_impl; [|apply key_dict_items].
  intros [k f] [Hk Hlast]. simpl in *. subst k. exact Hlast.
Qed.

Lemma pairs_of_key_order (A B : list Finding) :
  map (fun p => create_key (fst p)) (pairs_of (key_dict B) (key_dict A)) =
  filter (has_key B) (first_occurrences (map create_key A)).
Proof.
  rewrite pairs_of_keys, keyed_map.
  - rewrite (filter_fst_keys (fun k => PyDict.mem (key_dict B) k)).
    rewrite keys_key_dict. apply filter_ext. intros k. apply mem_key_dict.
  - apply Forall_filter_keep, key_dict_keyed.
Qed.

Lemma absent_from_key_order (A B : list Finding) :
  map create_key (absent_from (key_dict B) (key_dict A)) =
  filter (fun k => negb (has_key B k)) (first_occurrences (map create_key A)).
Proof.
  rewrite absent_from_keys. apply filter_ext. intros k.
  rewrite mem_key_dict. reflexivity.
Qed.

Lemma pairs_of_In (gt items : PyDict.t Finding) (k : string) (a b : Finding) :
  In (k, a) items -> PyDict.lookup gt k = Some b -> In (a, b) (pairs_of gt items).
Proof.
  intros Hin Hb. unfold pairs_of. apply in_flat_map.
  exists (k, a). split; [exact Hin|]. simpl. rewrite Hb. simpl. auto.
Qed.

Lemma absent_from_In (other items : PyDict.t Finding) (k : string)
    (a : Finding) :
  In (k, a) items -> PyDict.lookup other k = None ->
  In a (absent_from other items).
Proof.
  intros Hin Hn. unfold absent_from. apply in_map_iff.
  exists (k, a). split; [reflexivity|]. apply filter_In. split; [exact Hin|].
  unfold PyDict.mem. simpl. rewrite Hn. reflexivity.
Qed.

(** * The claims *)

(** ** KeyBuilder *)

(** C4. Class-name normalisation is idempotent: normalising a class name that
    is already normalised leaves it as it is, for every string. *)
Theorem normalize_class_name_idempotent (x : string) :
  normalize_class_name (normalize_class_name x) = normalize_class_name x.
Proof. unfold normalize_class_name. apply replace_char_idem. Qed.

(** C5. Two findings with the same field name, the class name of the second
    being the class name of the first with every ["$"] replaced by ["."],
    have the same comparison key. *)
Theorem create_key_separator_insensitive (f g : Finding) :
  get className g "" = replace_char "$"%char "."%char (get className f "") ->
  get fieldName g "" = get fieldName f "" ->
  create_key f = create_key g.
Proof.
  intros Hc Hf. unfold create_key, normalize_class_name.
  rewrite Hc, Hf, replace_char_idem. reflexivity.
Qed.

Lemma create_key_separator_insensitive_witness :
  create_key (mkFinding (Some "com.acme.Outer$Inner") (Some "counter")
                        (Some "AtomicLong") (Some "static") (Some "HIGH"))
  = create_key (mkFinding (Some "com.acme.Outer.Inner") (Some "counter")
                          (Some "java.util.concurrent.atomic.AtomicLong")
                          None None).
Proof.
  apply create_key_separator_insensitive; reflexivity.
Defined.

Lemma untyped_create_key_cases (f : Untyped.Finding) :
  Untyped.create_key f
  = match Untyped.className f with
    | Some (Untyped.NotStr _) => None
    | Some (Untyped.Str c) =>
        Some (normalize_class_name c ++ "::"
              ++ Untyped.format (Untyped.get Untyped.fieldName f ""))%string
    | None => Some ("::" ++ Untyped.format (Untyped.get Untyped.fieldName f ""))%string
    end.
Proof.
  unfold Untyped.create_key, Untyped.get at 1.
  destruct (Untyped.className f) as [[c|text]|]; reflexivity.
Qed.

Lemma untyped_create_key_none (f : Untyped.Finding) :
  Untyped.create_key f = None <-> Untyped.class_not_str f.
Proof.
  rewrite untyped_create_key_cases. unfold Untyped.class_not_str.
  destruct (Untyped.className f) as [[c|text]|]; split;
    try discriminate; try (intros [t H]; discriminate H); auto.
  intros _. exists text. reflexivity.
Qed.

Lemma untyped_key_dict_from (l : list Untyped.Finding)
    (d : PyDict.t Untyped.Finding) :
  fold_left
    (fun acc f =>
       d <- acc ;; key <- Untyped.create_key f ;; Some (PyDict.set d key f))
    l (Some d) = None
  <-> Exists Untyped.class_not_str l.
Proof.
  revert d. induction l as [|f l IH]; intros d.
  - simpl. split; [discriminate | intros H; inversion H].
  - change (fold_left ?F (f :: l) (Some d))
      with (fold_left F l
              (key <- Untyped.create_key f ;; Some (PyDict.set d key f))).
    destruct (Untyped.create_key f) as [key|] eqn:E.
    + simpl bind. rewrite IH. split; [intros H; right; exact H|].
      intros H. inversion H as [? ? Hf|? ? Hl]; subst; [|exact Hl].
      apply untyped_create_key_none in Hf. congruence.
    + split.
      * intros _. left. apply untyped_create_key_none, E.
      * intros _. clear. induction l as [|x l IH]; simpl; auto.
Qed.

Lemma untyped_compare_none (A B : list Untyped.Finding) :
  Untyped.compare A B = None
  <-> Exists Untyped.class_not_str A \/ Exists Untyped.class_not_str B.
Proof.
  unfold Untyped.compare.
  rewrite <- (untyped_key_dict_from A (PyDict.empty Untyped.Finding)).
  rewrite <- (untyped_key_dict_from B (PyDict.empty Untyped.Finding)).
  fold (Untyped.key_dict A). fold (Untyped.key_dict B).
  destruct (Untyped.key_dict A) as [dA|]; simpl.
  - destruct (Untyped.key_dict B) as [dB|]; simpl.
    + destruct (fold_left (Untyped.scan_step dB) _ _).
      split; [discriminate | intros [H|H]; discriminate H].
    + split; auto.
  - split; auto.
Qed.

Lemma untyped_create_key_of (g : Finding) :
  Untyped.create_key (untyped_of g) = Some (create_key g).
Proof.
  unfold Untyped.create_key, Untyped.get, untyped_of, create_key, get. simpl.
  destruct (className g), (fieldName g); reflexivity.
Qed.

Lemma set_values (V W : Type) (g : V -> W) (d : PyDict.t V) (k : string)
    (v : V) :
  map (fun item => (fst item, g (snd item))) (PyDict.set d k v)
  = PyDict.set (map (fun item => (fst item, g (snd item))) d) k (g v).
Proof.
  induction d as [|[k' v'] d IH]; simpl; [reflexivity|].
  destruct (String.eqb k' k); simpl; [reflexivity|]. rewrite IH. reflexivity.
Qed.

Lemma lookup_values (V W : Type) (g : V -> W) (d : PyDict.t V) (k : string) :
  PyDict.lookup (map (fun item => (fst item, g (snd item))) d) k
  = option_map g (PyDict.lookup d k).
Proof.
  induction d as [|[k' v'] d IH]; simpl; [reflexivity|].
  destruct (String.eqb k' k); [reflexivity | exact IH].
Qed.

Lemma untyped_key_dict_of (C : list Finding) :
  Untyped.key_dict (map untyped_of C)
  = Some (map (fun item => (fst item, untyped_of (snd item))) (key_dict C)).
Proof.
  induction C as [|g C IH] using rev_ind; [reflexivity|].
  rewrite map_app, key_dict_snoc, set_values. simpl map.
  unfold Untyped.key_dict in *. rewrite fold_left_app, IH. simpl.
  rewrite untyped_create_key_of. reflexivity.
Qed.

Lemma untyped_scan_of (gt items : PyDict.t Finding)
    (tp0 : list (Finding * Finding)) (fp0 : list Finding) :
  fold_left
    (Untyped.scan_step (map (fun item => (fst item, untyped_of (snd item))) gt))
    (map (fun item => (fst item, untyped_of (snd item))) items)
    (map (fun p => (untyped_of (fst p), untyped_of (snd p))) tp0,
     map untyped_of fp0)
  = (map (fun p => (untyped_of (fst p), untyped_of (snd p)))
         (fst (fold_left (scan_step gt) items (tp0, fp0))),
     map untyped_of (snd (fold_left (scan_step gt) items (tp0, fp0)))).
Proof.
  revert tp0 fp0. induction items as [|[k f] items IH]; intros tp0 fp0.
  - reflexivity.
  - simpl map at 2.
    change (fold_left ?F (?x :: ?l) ?a) with (fold_left F l (F a x)).
    unfold Untyped.scan_step at 2, scan_step at 2 4, PyDict.mem.
    rewrite lookup_values.
    destruct (PyDict.lookup gt k) as [t|]; simpl option_map; cbv iota.
    + rewrite <- IH, map_app. reflexivity.
    + rewrite <- IH, map_app. reflexivity.
Qed.

Lemma untyped_miss_of (ss items : PyDict.t Finding) (fn0 : list Finding) :
  fold_left
    (Untyped.miss_step (map (fun item => (fst item, untyped_of (snd item))) ss))
    (map (fun item => (fst item, untyped_of (snd item))) items)
    (map untyped_of fn0)
  = map untyped_of (fold_left (miss_step ss) items fn0).
Proof.
  revert fn0. induction items as [|[k f] items IH]; intros fn0.
  - reflexivity.
  - simpl map at 2.
    change (fold_left ?F (?x :: ?l) ?a) with (fold_left F l (F a x)).
    unfold Untyped.miss_step at 2, miss_step at 2, PyDict.mem.
    rewrite lookup_values.
    destruct (PyDict.lookup ss k) as [t|]; simpl option_map; simpl negb;
      cbv iota; rewrite <- IH, ?map_app; reflexivity.
Qed.

Lemma untyped_compare_of (C D : list Finding) :
  Untyped.compare (map untyped_of C) (map untyped_of D)
  = Some (map (fun p => (untyped_of (fst p), untyped_of (snd p)))
              (matched (compare C D)),
          map untyped_of (aOnly (compare C D)),
          map untyped_of (bOnly (compare C D))).
Proof.
  unfold Untyped.compare, compare, matched, aOnly, bOnly, PyDict.items.
  rewrite !untyped_key_dict_of. simpl bind.
  pose proof (untyped_scan_of (key_dict D) (key_dict C) [] []) as Hs.
  pose proof (untyped_miss_of (key_dict C) (key_dict D) []) as Hm.
  simpl map in Hs, Hm. rewrite Hs, Hm.
  destruct (fold_left (scan_step (key_dict D)) (key_dict C) ([], []))
    as [tp fp].
  reflexivity.
Qed.

(** C7, as the code has it.  Key construction returns a key exactly when
    the [className] entry is absent or a string.  An absent [className] or
    [fieldName] then counts as the empty string (keys such as
    ["ClassName::"] and ["::fieldX"]) and a [fieldName] of another type is
    put in as its text.  A [className] that is present and not a string, a
    JSON [null] for one, makes [name.replace] raise, whether [fieldName] is
    there or not; [compare] returns a partition exactly when no finding of
    either side has such a [className].  On findings whose entries are
    strings or absent, key and partition are those of [create_key] and
    [compare] above, and nothing raises. *)
Theorem create_key_raises_iff_class_not_string
    (f : Untyped.Finding) (A B : list Untyped.Finding)
    (g : Finding) (C D : list Finding) :
  Untyped.create_key f
  = match Untyped.className f with
    | Some (Untyped.NotStr _) => None
    | Some (Untyped.Str c) =>
        Some (normalize_class_name c ++ "::"
              ++ Untyped.format (Untyped.get Untyped.fieldName f ""))%string
    | None =>
        Some ("::" ++ Untyped.format (Untyped.get Untyped.fieldName f ""))%string
    end
  /\ (Untyped.create_key f = None <-> Untyped.class_not_str f)
  /\ Untyped.create_key
       (Untyped.mkFinding (Some (Untyped.Str "ClassName")) None
          (Untyped.fieldType f) (Untyped.pattern f) (Untyped.riskLevel f))
     = Some "ClassName::"
  /\ Untyped.create_key
       (Untyped.mkFinding None (Some (Untyped.Str "fieldX"))
          (Untyped.fieldType f) (Untyped.pattern f) (Untyped.riskLevel f))
     = Some "::fieldX"
  /\ (Untyped.compare A B = None
      <-> Exists Untyped.class_not_str A \/ Exists Untyped.class_not_str B)
  /\ Untyped.create_key (untyped_of g) = Some (create_key g)
  /\ Untyped.compare (map untyped_of C) (map untyped_of D)
     = Some (map (fun p => (untyped_of (fst p), untyped_of (snd p)))
                 (matched (compare C D)),
             map untyped_of (aOnly (compare C D)),
             map untyped_of (bOnly (compare C D))).
Proof.
  split; [apply untyped_create_key_cases|].
  split; [apply untyped_create_key_none|].
  split; [reflexivity|]. split; [reflexivity|].
  split; [apply untyped_compare_none|].
  split; [apply untyped_create_key_of | apply untyped_compare_of].
Qed.

(** C7 as stated fails: a finding without [fieldName] whose [className] is
    JSON [null] gets no key, [name.replace] raises on it, and a comparison
    that meets it returns nothing. *)
Lemma create_key_null_class_counterexample :
  let f := Untyped.mkFinding (Some (Untyped.NotStr "None")) None None None
                             None in
  Untyped.fieldName f = None
  /\ Untyped.create_key f = None
  /\ ~ (exists key, Untyped.create_key f = Some key)
  /\ Untyped.compare [f] [] = None
  /\ Untyped.compare [] [f] = None.
Proof.
  cbv zeta. repeat split. intros [key H]. discriminate H.
Qed.

(** ** Reconciler *)

(** C10. The matched pairs and the scanner-only findings are together as
    many as the distinct comparison keys of A, the matched pairs and the
    ground-truth-only findings as many as the distinct keys of B; within
    each of the three lists no comparison key occurs twice. *)
Theorem compare_counts_distinct_keys (A B : list Finding) :
  List.length (matched (compare A B)) + List.length (aOnly (compare A B))
  = distinct_keys A
  /\ List.length (matched (compare A B)) + List.length (bOnly (compare A B))
     = distinct_keys B
  /\ NoDup (map (fun p => create_key (fst p)) (matched (compare A B)))
  /\ NoDup (map (fun p => create_key (snd p)) (matched (compare A B)))
  /\ NoDup (map create_key (aOnly (compare A B)))
  /\ NoDup (map create_key (bOnly (compare A B))).
Proof.
  destruct (compare_sizes A B) as [HA HB].
  rewrite !key_dict_length in *.
  repeat split; auto; rewrite compare_closed_form; unfold matched, aOnly, bOnly;
    simpl.
  - rewrite pairs_of_key_order.
    apply NoDup_filter, first_occurrences_NoDup.
  - replace (map (fun p => create_key (snd p))
               (pairs_of (key_dict B) (key_dict A)))
      with (map (fun p => create_key (fst p))
              (pairs_of (key_dict B) (key_dict A))).
    + rewrite pairs_of_key_order.
      apply NoDup_filter, first_occurrences_NoDup.
    + apply map_ext_in. intros [a b] Hin. simpl.
      pose proof (pairs_of_last A B) as H. rewrite Forall_forall in H.
      destruct (H _ Hin) as [_ Hb]. simpl in Hb.
      unfold last_with_key in Hb. apply find_some in Hb.
      destruct Hb as [_ Hb]. apply String.eqb_eq in Hb. auto.
  - rewrite absent_from_key_order.
    apply NoDup_filter, first_occurrences_NoDup.
  - rewrite absent_from_key_order.
    apply NoDup_filter, first_occurrences_NoDup.
Qed.

(** C1, as the code has it.  The two sums never exceed the sizes of the
    inputs, and the sum on a side equals the size of that side exactly when
    no two findings of the side share a comparison key. *)
Theorem compare_sizes_iff_unique_keys (A B : list Finding) :
  List.length (matched (compare A B)) + List.length (aOnly (compare A B))
  <= List.length A
  /\ List.length (matched (compare A B)) + List.length (bOnly (compare A B))
     <= List.length B
  /\ (List.length (matched (compare A B)) + List.length (aOnly (compare A B))
      = List.length A <-> unique_keys A)
  /\ (List.length (matched (compare A B)) + List.length (bOnly (compare A B))
      = List.length B <-> unique_keys B).
Proof.
  destruct (compare_sizes A B) as [HA HB].
  rewrite key_dict_length in HA, HB. rewrite HA, HB.
  repeat split; try apply distinct_keys_le; apply distinct_keys_full.
Qed.

(** C1 as stated fails: two scanner findings with one comparison key and an
    empty ground truth give no matched pair and one scanner-only finding,
    while the scanner side has two entries. *)
Lemma compare_sizes_of_inputs_counterexample :
  let A := [ mkFinding (Some "com.acme.Foo$Bar") (Some "x") (Some "HashMap")
                       None None;
             mkFinding (Some "com.acme.Foo.Bar") (Some "x") (Some "Map")
                       None None ] in
  let B := @nil Finding in
  List.length (matched (compare A B)) + List.length (aOnly (compare A B)) = 1
  /\ List.length A = 2
  /\ ~ (List.length (matched (compare A B))
        + List.length (aOnly (compare A B)) = List.length A
        /\ List.length (matched (compare A B))
           + List.length (bOnly (compare A B)) = List.length B).
Proof.
  cbv zeta. repeat split.
  intros [H _]. vm_compute in H. discriminate H.
Qed.

(** C6. Comparing a collection with itself matches every distinct comparison
    key once and leaves nothing on either side. *)
Theorem compare_self (A : list Finding) :
  List.length (matched (compare A A)) = distinct_keys A
  /\ aOnly (compare A A) = []
  /\ bOnly (compare A A) = [].
Proof.
  destruct (compare_sizes A A) as [HA _].
  rewrite key_dict_length in HA. revert HA.
  rewrite compare_closed_form. unfold matched, aOnly, bOnly. simpl.
  rewrite absent_from_self. simpl. rewrite Nat.add_0_r. auto.
Qed.

(** C8. Every finding of the result is the last one of its side with its
    comparison key: both members of a matched pair (the scanner's in A, the
    ground truth's in B), every scanner-only finding in A and every
    ground-truth-only finding in B.  Conversely the last finding of each key
    of a side is in the result, so each key is represented, and by its last
    occurrence.  The result is the three lists alone: nothing reports the
    findings that were replaced. *)
Theorem compare_keeps_last_occurrence (A B : list Finding) :
  Forall (fun p => last_with_key (create_key (fst p)) A = Some (fst p)
                   /\ last_with_key (create_key (fst p)) B = Some (snd p))
         (matched (compare A B))
  /\ Forall (fun a => last_with_key (create_key a) A = Some a)
            (aOnly (compare A B))
  /\ Forall (fun b => last_with_key (create_key b) B = Some b)
            (bOnly (compare A B))
  /\ (forall k a, last_with_key k A = Some a ->
        In a (aOnly (compare A B))
        \/ exists b, last_with_key k B = Some b
                     /\ In (a, b) (matched (compare A B)))
  /\ (forall k b, last_with_key k B = Some b ->
        In b (bOnly (compare A B))
        \/ exists a, last_with_key k A = Some a
                     /\ In (a, b) (matched (compare A B))).
Proof.
  rewrite compare_closed_form. unfold matched, aOnly, bOnly. simpl.
  split; [apply pairs_of_last|].
  split; [apply absent_from_last|].
  split; [apply absent_from_last|].
  split.
  - intros k a Ha. rewrite <- lookup_key_dict in Ha.
    apply PyDictFacts.lookup_In in Ha.
    destruct (last_with_key k B) as [b|] eqn:Hb;
      rewrite <- lookup_key_dict in Hb.
    + right. exists b. split; [reflexivity|].
      eapply pairs_of_In; eassumption.
    + left. eapply absent_from_In; eassumption.
  - intros k b Hb. rewrite <- lookup_key_dict in Hb.
    destruct (last_with_key k A) as [a|] eqn:Ha;
      rewrite <- lookup_key_dict in Ha.
    + right. exists a. split; [reflexivity|].
      apply PyDictFacts.lookup_In in Ha.
      eapply pairs_of_In; eassumption.
    + left. apply PyDictFacts.lookup_In in Hb.
      eapply absent_from_In; eassumption.
Qed.

(** C9. The keys of the matched pairs are the keys of A that occur in B, in
    the order of their first occurrence in A; the keys of the scanner-only
    findings are the keys of A that do not occur in B, in the same order;
    the keys of the ground-truth-only findings are the keys of B that do not
    occur in A, in the order of their first occurrence in B. *)
Theorem compare_first_occurrence_order (A B : list Finding) :
  map (fun p => create_key (fst p)) (matched (compare A B))
  = filter (has_key B) (first_occurrences (map create_key A))
  /\ map create_key (aOnly (compare A B))
     = filter (fun k => negb (has_key B k))
              (first_occurrences (map create_key A))
  /\ map create_key (bOnly (compare A B))
     = filter (fun k => negb (has_key A k))
              (first_occurrences (map create_key B)).
Proof.
  rewrite compare_closed_form. unfold matched, aOnly, bOnly. simpl.
  repeat split.
  - apply pairs_of_key_order.
  - apply absent_from_key_order.
  - apply absent_from_key_order.
Qed.

(** ** Categorizer *)

Lemma category_of_first_match (field_type : string) :
  category_of field_type = first_match category_table field_type.
Proof.
  unfold category_of, category_table, first_match, existsb.
  rewrite ?orb_false_r, ?orb_assoc. reflexivity.
Qed.

Lemma bucket_append (d : PyDict.t (list Finding)) (l label : string)
    (f : Finding) :
  bucket (defaultdict_append d l f) label =
  bucket d label ++ (if String.eqb l label then [f] else []).
Proof.
  unfold bucket, defaultdict_append.
  destruct (String.eqb_spec l label) as [->|Hne].
  - destruct (PyDict.lookup d label) as [b|];
      rewrite PyDictFacts.lookup_set_same; reflexivity.
  - destruct (PyDict.lookup d l) as [b|];
      rewrite PyDictFacts.lookup_set_other by exact Hne;
      rewrite app_nil_r; reflexivity.
Qed.

Lemma bucket_categorize (fs : list Finding) (label : string) :
  bucket (categorize_by_type fs) label =
  filter (fun f => String.eqb (category_of (get fieldType f "")) label) fs.
Proof.
  unfold categorize_by_type.
  induction fs as [|f fs IH] using rev_ind; [reflexivity|].
  rewrite fold_left_app, filter_app. simpl.
  rewrite bucket_append, IH.
  destruct (String.eqb _ label); reflexivity.
Qed.

(** C3. A finding is filed under the label of the first predicate of the
    ordered list (ThreadLocal, Metrics, Cache, Map, List, Set, Atomic,
    Recorder) that its field type matches, under Other when it matches none,
    and under no other label; a finding of field type
    ["ConcurrentHashMap<String,Counter>"] goes to Metrics, not to Map. *)
Theorem categorize_first_match (findings : list Finding) (label : string)
    (class_name field_name why risk : option string) :
  map snd category_table
  = ["ThreadLocal"; "Metrics"; "Cache"; "Map"; "List"; "Set"; "Atomic";
     "Recorder"]
  /\ bucket (categorize_by_type findings) label
     = filter (fun f => String.eqb
                          (first_match category_table (get fieldType f ""))
                          label)
              findings
  /\ let f := mkFinding class_name field_name
                        (Some "ConcurrentHashMap<String,Counter>") why risk in
     categorize_by_type [f] = [("Metrics", [f])].
Proof.
  split; [reflexivity|]. split.
  - rewrite bucket_categorize. apply filter_ext. intros f.
    rewrite category_of_first_match. reflexivity.
  - reflexivity.
Qed.

(** ** MetricsCalculator *)

Section RoundingSign.
Local Open Scope Z_scope.

Lemma shr_1_nonneg (mrs : shr_record) :
  0 <= shr_m mrs -> 0 <= shr_m (shr_1 mrs).
Proof.
  destruct mrs as [m r s]. simpl.
  destruct m as [|[p|p|]|p]; simpl; lia.
Qed.

Lemma iter_shr_1_nonneg (n : positive) (mrs : shr_record) :
  0 <= shr_m mrs -> 0 <= shr_m (iter_pos shr_1 n mrs).
Proof.
  revert mrs. induction n as [n IH|n IH|]; intros mrs H; simpl.
  - apply IH, IH, shr_1_nonneg, H.
  - apply IH, IH, H.
  - apply shr_1_nonneg, H.
Qed.

Lemma shr_fexp_nonneg (m e : Z) (l : location) :
  0 <= m -> 0 <= shr_m (fst (shr_fexp prec emax m e l)).
Proof.
  intros H. unfold shr_fexp, shr.
  assert (H0 : 0 <= shr_m (shr_record_of_loc m l)).
  { destruct l as [|[| |]]; exact H. }
  destruct (fexp prec emax (Zdigits2 m + e) - e); simpl; auto.
  apply iter_shr_1_nonneg, H0.
Qed.

Lemma round_nearest_even_nonneg (m : Z) (l : location) :
  0 <= m -> 0 <= round_nearest_even m l.
Proof.
  intros H. destruct l as [|[| |]]; simpl; try lia.
  destruct (Z.even m); lia.
Qed.

Lemma binary_round_aux_nonneg (m e : Z) (l : location) :
  0 <= m -> nonneg_float (binary_round_aux prec emax false m e l) = true.
Proof.
  intros H. unfold binary_round_aux.
  pose proof (shr_fexp_nonneg e l H) as H1.
  destruct (shr_fexp prec emax m e l) as [mrs1 e1]. simpl in H1.
  pose proof (shr_fexp_nonneg e1 loc_Exact
                (round_nearest_even_nonneg (loc_of_shr_record mrs1) H1)) as H2.
  destruct (shr_fexp prec emax _ e1 loc_Exact) as [mrs2 e2]. simpl in H2.
  destruct (shr_m mrs2) as [|q|q]; [reflexivity | | lia].
  destruct (e2 <=? emax - prec); reflexivity.
Qed.

Lemma int_truediv_nonneg (m n : Z) :
  0 <= m -> 0 < n -> nonneg_float (int_truediv m n) = true.
Proof.
  intros Hm Hn. unfold int_truediv.
  destruct n as [|n|n]; try lia.
  destruct m as [|m|m]; try lia; [reflexivity|].
  unfold exact_of_int, SFdiv, SFdiv_core_binary.
  set (m' := match _ with Z0 => Z.pos m | Z.pos _ => _ | Z.neg _ => 0 end).
  assert (Hm' : 0 <= m').
  { subst m'. destruct (_ - _ - _); try lia. apply Z.shiftl_nonneg. lia. }
  pose proof (Z.div_pos m' (Z.pos n) Hm' Hn) as Hq.
  unfold Z.div in Hq.
  destruct (Z.div_eucl m' (Z.pos n)) as [q r].
  apply binary_round_aux_nonneg, Hq.
Qed.

Lemma SF64add_nonneg (x y : spec_float) :
  nonneg_float x = true -> nonneg_float y = true ->
  nonneg_float (SF64add x y) = true.
Proof.
  destruct x as [sx|sx| |sx mx ex], y as [sy|sy| |sy my ey];
    simpl; try discriminate; try (destruct sx, sy; simpl; congruence);
    try (destruct sx; simpl; congruence); try (destruct sy; simpl; congruence).
  destruct sx, sy; try discriminate. intros _ _.
  unfold SF64add, SFadd, cond_Zopp, binary_normalize.
  change (Z.pos ?a + Z.pos ?b) with (Z.pos (a + b)).
  set (sum := (_ + _)%positive). cbv beta iota.
  unfold binary_round.
  destruct (shl_align sum _ _) as [mz ez].
  apply binary_round_aux_nonneg. lia.
Qed.

Lemma nonneg_gt_zero (z : spec_float) :
  nonneg_float z = true ->
  SFltb (S754_zero false) z = negb (SFeqb z (S754_zero false)).
Proof.
  destruct z as [s|s| |s m e]; try destruct s; simpl; intros H;
    try discriminate H; reflexivity.
Qed.
End RoundingSign.

Lemma ratio_code (num rest : nat) :
  (if py_gt (py_add (PyInt (Z.of_nat num)) (PyInt (Z.of_nat rest))) (PyInt 0)
   then py_truediv (PyInt (Z.of_nat num))
                   (py_add (PyInt (Z.of_nat num)) (PyInt (Z.of_nat rest)))
   else Some (PyInt 0))
  = Some (spec_ratio num (num + rest)).
Proof.
  unfold py_add, py_gt, py_truediv, spec_ratio.
  rewrite <- Nat2Z.inj_add.
  destruct (Nat.eqb_spec (num + rest) 0) as [E|E].
  - rewrite E. reflexivity.
  - destruct (Z.ltb_spec 0 (Z.of_nat (num + rest))) as [H|H]; [|lia].
    destruct (Z.eqb_spec (Z.of_nat (num + rest)) 0) as [H0|H0]; [lia|].
    reflexivity.
Qed.

Lemma spec_ratio_like (num rest : nat) : ratio_like (spec_ratio num (num + rest)).
Proof.
  unfold spec_ratio.
  destruct (Nat.eqb_spec (num + rest) 0) as [E|E]; simpl; [reflexivity|].
  apply int_truediv_nonneg; lia.
Qed.

Lemma ratio_like_to_float (a : pynum) :
  ratio_like a -> nonneg_float (to_float a) = true.
Proof. destruct a as [n|x]; simpl; intros H; [subst n; reflexivity | exact H]. Qed.

Lemma float_f1_code (num z : spec_float) :
  nonneg_float z = true ->
  (if SFltb (S754_zero false) z
   then (if float_is_zero z then None else Some (PyFloat (SF64div num z)))
   else Some (PyInt 0))
  = Some (if SFeqb z (S754_zero false) then PyInt 0
          else PyFloat (SF64div num z)).
Proof.
  intros H. rewrite (nonneg_gt_zero z H).
  destruct z as [s|s| |s m e]; try destruct s; try discriminate H; reflexivity.
Qed.

Lemma f1_code (precision recall : pynum) :
  ratio_like precision -> ratio_like recall ->
  (if py_gt (py_add precision recall) (PyInt 0)
   then py_truediv (py_mul (py_mul (PyInt 2) precision) recall)
                   (py_add precision recall)
   else Some (PyInt 0))
  = Some (spec_f1 precision recall).
Proof.
  intros Hp Hr. unfold spec_f1.
  pose proof (SF64add_nonneg _ _ (ratio_like_to_float _ Hp)
                (ratio_like_to_float _ Hr)) as Hz.
  destruct precision as [m|x], recall as [n|y].
  - simpl in Hp, Hr. subst m n. reflexivity.
  - apply (float_f1_code _ _ Hz).
  - apply (float_f1_code _ _ Hz).
  - apply (float_f1_code _ _ Hz).
Qed.

(** C2. The metrics are defined for every partition (no division by zero is
    attempted) and are those of the design: precision and recall are the
    ratios of the sizes, [0] when the denominator is [0]; F1 is
    [2 * precision * recall / (precision + recall)], [0] when
    [precision + recall] is [0].  For two empty collections the three of them
    are the integer [0]. *)
Theorem compute_metrics_spec (A B : list Finding)
    (tp : list (Finding * Finding)) (fp fn : list Finding) :
  compute_metrics tp fp fn
  = Some (spec_metrics (List.length tp) (List.length fp) (List.length fn))
  /\ metrics_of A B
     = Some (spec_metrics (List.length (matched (compare A B)))
                          (List.length (aOnly (compare A B)))
                          (List.length (bOnly (compare A B))))
  /\ spec_metrics 0 0 0 = (PyInt 0, PyInt 0, PyInt 0)
  /\ metrics_of [] [] = Some (PyInt 0, PyInt 0, PyInt 0).
Proof.
  assert (H : forall tp' fp' fn',
             compute_metrics tp' fp' fn'
             = Some (spec_metrics (List.length tp') (List.length fp')
                                  (List.length fn'))).
  { intros tp' fp' fn'. unfold compute_metrics, spec_metrics, len.
    rewrite !ratio_code. unfold bind.
    rewrite f1_code by apply spec_ratio_like. reflexivity. }
  repeat split; auto.
  unfold metrics_of, matched, aOnly, bOnly.
  destruct (compare A B) as [[tp' fp'] fn']. apply H.
Qed.

(** * Worked examples: the end-to-end scenarios of the design *)

(** One scanner finding, empty ground truth. *)
Example scenario_scanner_only :
  let a := mkFinding (Some "com.acme.Foo") (Some "x") (Some "AtomicLong")
                     None None in
  compare [a] [] = ([], [a], [])
  /\ metrics_of [a] [] = Some (PyFloat (S754_zero false), PyInt 0, PyInt 0)
  /\ categorize_by_type (aOnly (compare [a] [])) = [("Atomic", [a])].
Proof. cbv zeta. repeat split; vm_compute; reflexivity. Qed.

(** The two sides name one nested class with different separators. *)
Example scenario_nested_class :
  let a := mkFinding (Some "com.acme.Foo$Bar") (Some "y") (Some "HashMap")
                     None None in
  let b := mkFinding (Some "com.acme.Foo.Bar") (Some "y")
                     (Some "ConcurrentHashMap") None None in
  let one := PyFloat (S754_finite false 4503599627370496 (-52)) in
  compare [a] [b] = ([(a, b)], [], [])
  /\ metrics_of [a] [b] = Some (one, one, one).
Proof. cbv zeta. repeat split; vm_compute; reflexivity. Qed.

(** Empty scanner output, one ground-truth finding. *)
Example scenario_ground_truth_only :
  let b := mkFinding (Some "X") (Some "z") (Some "List") None None in
  compare [] [b] = ([], [], [b])
  /\ metrics_of [] [b] = Some (PyInt 0, PyFloat (S754_zero false), PyInt 0)
  /\ categorize_by_type (bOnly (compare [] [b])) = [("List", [b])].
Proof. cbv zeta. repeat split; vm_compute; reflexivity. Qed.

(** A key met twice on the scanner side keeps the place of its first finding
    and the payload of its last. *)
Example scenario_duplicate_key :
  let a1 := mkFinding (Some "p.Outer$In") (Some "f") (Some "HashMap")
                      (Some "first") None in
  let a2 := mkFinding (Some "p.Other") (Some "g") (Some "Set") None None in
  let a3 := mkFinding (Some "p.Outer.In") (Some "f") (Some "Counter")
                      (Some "last") None in
  compare [a1; a2; a3] [] = ([], [a3; a2], [])
  /\ distinct_keys [a1; a2; a3] = 2.
Proof. cbv zeta. repeat split; vm_compute; reflexivity. Qed.

(** * Further properties of the code *)

(** ** Strings and keys *)

Lemma contains_char (ch a : ascii) (s : string) :
  contains (String ch "") (String a s)
  = Ascii.eqb ch a || contains (String ch "") s.
Proof.
  simpl. destruct (ascii_dec ch a) as [->|Hne].
  - rewrite Ascii.eqb_refl. destruct s; reflexivity.
  - destruct (Ascii.eqb_spec ch a); [congruence | reflexivity].
Qed.

Lemma contains_char_replace (ch old new : ascii) (s : string) :
  ch <> old -> ch <> new ->
  contains (String ch "") (replace_char old new s) = contains (String ch "") s.
Proof.
  intros Ho Hn. induction s as [|a s IH]; [reflexivity|].
  change (replace_char old new (String a s))
    with (String (if Ascii.eqb a old then new else a) (replace_char old new s)).
  rewrite !contains_char, IH. f_equal.
  destruct (Ascii.eqb_spec a old) as [->|Hao]; [|reflexivity].
  destruct (Ascii.eqb_spec ch new); [congruence|].
  destruct (Ascii.eqb_spec ch old); [congruence | reflexivity].
Qed.

(** X1. Normalisation leaves no ["$"] in a class name, keeps its length, and
    changes a name only if it has a ["$"]. *)
Theorem normalize_class_name_removes_separator (name : string) :
  contains "$" (normalize_class_name name) = false
  /\ String.length (normalize_class_name name) = String.length name
  /\ (normalize_class_name name = name <-> contains "$" name = false).
Proof.
  unfold normalize_class_name. induction name as [|a s [IH1 [IH2 IH3]]].
  - repeat split; reflexivity.
  - change (replace_char "$" "." (String a s))
      with (String (if Ascii.eqb a "$" then "."%char else a)
                   (replace_char "$" "." s)).
    rewrite !contains_char. split; [|split].
    + rewrite IH1. destruct (Ascii.eqb_spec a "$"%char) as [->|Hne].
      * reflexivity.
      * destruct (Ascii.eqb_spec "$"%char a); [congruence | reflexivity].
    + simpl. rewrite IH2. reflexivity.
    + destruct (Ascii.eqb_spec a "$"%char) as [->|Hne].
      * rewrite Ascii.eqb_refl. simpl. split; discriminate.
      * destruct (Ascii.eqb_spec "$"%char a); [congruence|]. simpl.
        rewrite <- IH3. split.
        -- intros H. injection H as H. exact H.
        -- intros H. rewrite H. reflexivity.
Qed.

Lemma key_parts_unique (c1 c2 f1 f2 : string) :
  contains ":" c1 = false -> contains ":" c2 = false ->
  (c1 ++ "::" ++ f1)%string = (c2 ++ "::" ++ f2)%string ->
  c1 = c2 /\ f1 = f2.
Proof.
  revert c2. induction c1 as [|a c1 IH]; intros [|b c2] H1 H2 E.
  - simpl in E. injection E as E. auto.
  - rewrite contains_char in H2. apply orb_false_elim in H2.
    destruct H2 as [H2 _]. simpl in E. injection E as Eb _.
    subst b. discriminate H2.
  - rewrite contains_char in H1. apply orb_false_elim in H1.
    destruct H1 as [H1 _]. simpl in E. injection E as Ea _.
    subst a. discriminate H1.
  - rewrite contains_char in H1, H2.
    apply orb_false_elim in H1. apply orb_false_elim in H2.
    simpl in E. injection E as Eab E.
    destruct (IH c2 (proj2 H1) (proj2 H2) E) as [-> ->]. subst. auto.
Qed.

(** X2. For two findings whose class names have no [":"], the comparison
    keys are equal exactly when the normalised class names are equal and the
    field names are equal (an absent entry counting as the empty string). *)
Theorem create_key_injective_without_colon (f g : Finding) :
  contains ":" (get className f "") = false ->
  contains ":" (get className g "") = false ->
  (create_key f = create_key g
   <-> normalize_class_name (get className f "")
       = normalize_class_name (get className g "")
       /\ get fieldName f "" = get fieldName g "").
Proof.
  intros Hf Hg. unfold create_key. split.
  - apply key_parts_unique; unfold normalize_class_name;
      rewrite contains_char_replace; auto; discriminate.
  - intros [-> ->]. reflexivity.
Qed.

Lemma create_key_injective_without_colon_witness :
  create_key (mkFinding (Some "a.B$C") (Some "x") None None None)
  = create_key (mkFinding (Some "a.B.C") (Some "x") (Some "Map") None None)
  <-> normalize_class_name "a.B$C" = normalize_class_name "a.B.C"
      /\ "x" = "x".
Proof.
  apply (create_key_injective_without_colon
           (mkFinding (Some "a.B$C") (Some "x") None None None)
           (mkFinding (Some "a.B.C") (Some "x") (Some "Map") None None));
    reflexivity.
Defined.

Lemma replace_char_app (old new : ascii) (s t : string) :
  replace_char old new (s ++ t)
  = (replace_char old new s ++ replace_char old new t)%string.
Proof.
  induction s as [|a s IH]; simpl; [reflexivity|]. rewrite IH. reflexivity.
Qed.

Lemma string_app_assoc (s t u : string) :
  ((s ++ t) ++ u)%string = (s ++ t ++ u)%string.
Proof. induction s as [|a s IH]; simpl; [reflexivity|]. rewrite IH. reflexivity. Qed.

Lemma replace_char_unchanged (old new : ascii) (s : string) :
  contains (String old "") s = false -> replace_char old new s = s.
Proof.
  induction s as [|a s IH]; [reflexivity|].
  rewrite contains_char. intros H. apply orb_false_elim in H.
  destruct H as [Ha Hs]. simpl. rewrite (IH Hs).
  destruct (Ascii.eqb_spec a old) as [->|Hne]; [|reflexivity].
  rewrite Ascii.eqb_refl in Ha. discriminate Ha.
Qed.

(** X3. The key does not tell where the class name ends when a name holds
    ["::"]: class [c] with field [x ++ "::" ++ y] and class [c ++ "::" ++ x]
    with field [y] have one key whenever [x] has no ["$"], whatever the rest
    of the two findings. *)
Theorem create_key_separator_ambiguity (c x y : string)
    (t1 t2 p1 p2 r1 r2 : option string) :
  contains "$" x = false ->
  create_key (mkFinding (Some c) (Some (x ++ "::" ++ y)%string) t1 p1 r1)
  = create_key (mkFinding (Some (c ++ "::" ++ x)%string) (Some y) t2 p2 r2).
Proof.
  intros Hx. unfold create_key, get, normalize_class_name.
  cbv beta iota zeta. cbn [className fieldName].
  rewrite !replace_char_app.
  rewrite (replace_char_unchanged "$" "." x Hx).
  change (replace_char "$" "." "::") with "::".
  rewrite !string_app_assoc. reflexivity.
Qed.

Lemma create_key_separator_ambiguity_witness :
  create_key (mkFinding (Some "a.B") (Some "C::d") None None None)
  = create_key (mkFinding (Some "a.B::C") (Some "d") (Some "Map") None None).
Proof.
  apply (create_key_separator_ambiguity "a.B" "C" "d"). reflexivity.
Defined.

(** ** More on [compare] *)

Lemma last_with_key_In (k : string) (l : list Finding) (f : Finding) :
  last_with_key k l = Some f -> In f l /\ create_key f = k.
Proof.
  unfold last_with_key. intros H. apply find_some in H.
  destruct H as [Hin Hk]. apply in_rev in Hin. apply String.eqb_eq in Hk.
  auto.
Qed.

Lemma absent_from_not_mem (other : PyDict.t Finding)
    (items : list (string * Finding)) :
  Forall (fun item => fst item = create_key (snd item)) items ->
  Forall (fun a => PyDict.mem other (create_key a) = false)
         (absent_from other items).
Proof.
  intros H. unfold absent_from. apply Forall_map.
  induction H as [|[k f] items Hk Hitems IH]; simpl; [constructor|].
  destruct (PyDict.mem other k) eqn:E; simpl; auto.
  constructor; auto. simpl in *. subst k. exact E.
Qed.

(** X4. Nothing in the result is made up: the two members of a matched pair
    are findings of A and of B with one comparison key; a scanner-only
    finding is in A and its key is the key of no finding of B; a
    ground-truth-only finding is in B and its key is the key of no finding
    of A. *)
Theorem compare_results_come_from_inputs (A B : list Finding) :
  Forall (fun p => In (fst p) A /\ In (snd p) B
                   /\ create_key (fst p) = create_key (snd p))
         (matched (compare A B))
  /\ Forall (fun a => In a A /\ has_key B (create_key a) = false)
            (aOnly (compare A B))
  /\ Forall (fun b => In b B /\ has_key A (create_key b) = false)
            (bOnly (compare A B)).
Proof.
  rewrite compare_closed_form. unfold matched, aOnly, bOnly. simpl.
  split; [|split].
  - eapply Forall_impl; [|apply pairs_of_last].
    intros [a b] [Ha Hb]. simpl in *.
    apply last_with_key_In in Ha. apply last_with_key_In in Hb.
    destruct Ha as [Ha _], Hb as [Hb Hk]. auto.
  - apply Forall_forall. intros a Hin. split.
    + pose proof (absent_from_last (key_dict B) A) as H.
      rewrite Forall_forall in H. apply (last_with_key_In _ _ (H a Hin)).
    + pose proof (absent_from_not_mem (key_dict B) (key_dict_keyed A)) as H.
      rewrite Forall_forall in H. rewrite <- mem_key_dict. apply (H a Hin).
  - apply Forall_forall. intros b Hin. split.
    + pose proof (absent_from_last (key_dict A) B) as H.
      rewrite Forall_forall in H. apply (last_with_key_In _ _ (H b Hin)).
    + pose proof (absent_from_not_mem (key_dict A) (key_dict_keyed B)) as H.
      rewrite Forall_forall in H. rewrite <- mem_key_dict. apply (H b Hin).
Qed.

Lemma pairs_of_In_iff (A B : list Finding) (a b : Finding) :
  In (a, b) (pairs_of (key_dict B) (key_dict A))
  <-> exists k, last_with_key k A = Some a /\ last_with_key k B = Some b.
Proof.
  split.
  - intros H. unfold pairs_of in H. apply in_flat_map in H.
    destruct H as [[k a'] [Hin H]]. simpl in H. exists k.
    rewrite <- !lookup_key_dict.
    destruct (PyDict.lookup (key_dict B) k) as [b'|] eqn:E; [|destruct H].
    destruct H as [H|[]]. injection H as -> ->. split; [|reflexivity].
    apply PyDictFacts.In_lookup; [apply key_dict_NoDup | exact Hin].
  - intros [k [Ha Hb]]. rewrite <- lookup_key_dict in Ha, Hb.
    apply PyDictFacts.lookup_In in Ha. eapply pairs_of_In; eassumption.
Qed.

Lemma pairs_of_NoDup (A B : list Finding) :
  NoDup (pairs_of (key_dict B) (key_dict A)).
Proof.
  apply (NoDup_map_inv (fun p => create_key (fst p))).
  rewrite pairs_of_key_order. apply NoDup_filter, first_occurrences_NoDup.
Qed.

Lemma pairs_of_exchange (A B : list Finding) :
  Permutation (pairs_of (key_dict A) (key_dict B))
              (map (fun p => (snd p, fst p))
                   (pairs_of (key_dict B) (key_dict A))).
Proof.
  apply NoDup_Permutation.
  - apply pairs_of_NoDup.
  - apply (NoDup_map_inv (fun p => create_key (snd p))).
    rewrite map_map. simpl. rewrite pairs_of_key_order.
    apply NoDup_filter, first_occurrences_NoDup.
  - intros [b a]. rewrite pairs_of_In_iff, in_map_iff. split.
    + intros [k [Hb Ha]]. exists (a, b). split; [reflexivity|].
      apply pairs_of_In_iff. exists k. auto.
    + intros [[a' b'] [E H]]. simpl in E. injection E as -> ->.
      apply pairs_of_In_iff in H. destruct H as [k [Ha Hb]].
      exists k. auto.
Qed.

(** X5. Exchanging the two inputs exchanges the two one-sided lists, and the
    matched pairs are the same pairs turned round, up to their order (which
    follows the first input). *)
Theorem compare_exchange (A B : list Finding) :
  aOnly (compare B A) = bOnly (compare A B)
  /\ bOnly (compare B A) = aOnly (compare A B)
  /\ Permutation (matched (compare B A))
                 (map (fun p => (snd p, fst p)) (matched (compare A B))).
Proof.
  rewrite !compare_closed_form. unfold matched, aOnly, bOnly. simpl.
  split; [reflexivity|]. split; [reflexivity|].
  apply pairs_of_exchange.
Qed.

Lemma set_fresh (V : Type) (d : PyDict.t V) (k : string) (v : V) :
  ~ In k (PyDict.keys d) -> PyDict.set d k v = d ++ [(k, v)].
Proof.
  induction d as [|[k' v'] d IH]; simpl; intros H; [reflexivity|].
  destruct (String.eqb_spec k' k) as [->|Hne]; [tauto|].
  rewrite IH; auto.
Qed.

Lemma key_dict_unique (A : list Finding) :
  unique_keys A -> key_dict A = map (fun f => (create_key f, f)) A.
Proof.
  unfold unique_keys. induction A as [|f A IH] using rev_ind; intros H.
  - reflexivity.
  - rewrite map_app in H. simpl in H.
    pose proof (NoDup_remove_1 _ _ _ H) as H1.
    pose proof (NoDup_remove_2 _ _ _ H) as H2.
    rewrite app_nil_r in H1, H2.
    rewrite key_dict_snoc, map_app, IH by exact H1. simpl.
    apply set_fresh. unfold PyDict.keys. rewrite map_map. simpl. exact H2.
Qed.

Lemma absent_from_empty (items : list (string * Finding)) :
  absent_from (PyDict.empty Finding) items = map snd items.
Proof.
  unfold absent_from, PyDict.mem, PyDict.empty. simpl.
  induction items as [|x items IH]; simpl; [reflexivity|].
  f_equal. exact IH.
Qed.

Lemma pairs_of_empty (items : list (string * Finding)) :
  pairs_of (PyDict.empty Finding) items = [].
Proof. induction items as [|x items IH]; simpl; auto. Qed.

(** X6. Against an empty other side a collection without repeated keys comes
    back whole and in order: as the scanner-only list when the ground truth
    is empty, as the ground-truth-only list when the scanner output is
    empty; the other two lists are empty. *)
Theorem compare_with_empty_side (A : list Finding) :
  unique_keys A ->
  compare A [] = ([], A, []) /\ compare [] A = ([], [], A).
Proof.
  intros H. rewrite !compare_closed_form.
  change (key_dict []) with (PyDict.empty Finding).
  rewrite !absent_from_empty, pairs_of_empty, (key_dict_unique H).
  rewrite map_map. simpl. rewrite map_id. auto.
Qed.

Lemma compare_with_empty_side_witness :
  let A := [ mkFinding (Some "a.B$C") (Some "x") (Some "Map") None None;
             mkFinding (Some "a.B") (Some "x") None None None ] in
  compare A [] = ([], A, []) /\ compare [] A = ([], [], A).
Proof.
  apply compare_with_empty_side. unfold unique_keys.
  repeat constructor; simpl; intuition discriminate.
Defined.

(** ** More on the metrics *)

Lemma compute_metrics_closed_form (tp : list (Finding * Finding))
    (fp fn : list Finding) :
  compute_metrics tp fp fn
  = Some (spec_metrics (List.length tp) (List.length fp) (List.length fn)).
Proof.
  unfold compute_metrics, spec_metrics, len.
  rewrite !ratio_code. unfold bind.
  rewrite f1_code by apply spec_ratio_like. reflexivity.
Qed.

Lemma spec_ratio_zero (rest : nat) :
  spec_ratio 0 (0 + rest)
  = if Nat.eqb rest 0 then PyInt 0 else PyFloat (S754_zero false).
Proof. destruct rest; reflexivity. Qed.

(** X7. Without a matched pair the three metrics are zero whatever the two
    one-sided lists are: precision is the integer [0] when there is no
    scanner-only finding and the float [0.0] otherwise, recall likewise with
    the ground-truth-only findings, and F1 is the integer [0]. *)
Theorem compute_metrics_no_match (fp fn : list Finding) :
  compute_metrics [] fp fn
  = Some (if Nat.eqb (List.length fp) 0 then PyInt 0
          else PyFloat (S754_zero false),
          if Nat.eqb (List.length fn) 0 then PyInt 0
          else PyFloat (S754_zero false),
          PyInt 0).
Proof.
  rewrite compute_metrics_closed_form. unfold spec_metrics.
  change (List.length (@nil (Finding * Finding))) with 0.
  rewrite !spec_ratio_zero.
  destruct (Nat.eqb (List.length fp) 0), (Nat.eqb (List.length fn) 0);
    reflexivity.
Qed.

(** X8. Precision and recall are never a NaN and never negative, whatever
    the sizes of the three lists. *)
Theorem precision_recall_not_nan (tp : list (Finding * Finding))
    (fp fn : list Finding) :
  exists precision recall f1,
    compute_metrics tp fp fn = Some (precision, recall, f1)
    /\ nonneg_float (to_float precision) = true
    /\ nonneg_float (to_float recall) = true.
Proof.
  rewrite compute_metrics_closed_form. unfold spec_metrics.
  eexists _, _, _. split; [reflexivity|].
  split; apply ratio_like_to_float, spec_ratio_like.
Qed.

Lemma div_eucl_self_shift (p : positive) :
  Z.div_eucl (Z.shiftl (Z.pos p) 53) (Z.pos p) = (2 ^ 53, 0)%Z.
Proof.
  rewrite Z.shiftl_mul_pow2 by lia.
  pose proof (Z_div_mod (Z.pos p * 2 ^ 53) (Z.pos p) eq_refl) as H.
  destruct (Z.div_eucl (Z.pos p * 2 ^ 53) (Z.pos p)) as [q r].
  destruct H as [H1 H2].
  assert (q = 2 ^ 53)%Z by nia. subst q. f_equal. lia.
Qed.

Lemma int_truediv_self (n : Z) : (0 < n)%Z -> int_truediv n n = float_one.
Proof.
  intros Hn. destruct n as [|p|p]; try lia.
  unfold int_truediv, exact_of_int, SFdiv, SFdiv_core_binary.
  replace (Zdigits2 (Z.pos p) + 0 - (Zdigits2 (Z.pos p) + 0))%Z with 0%Z
    by lia.
  change (Z.min (fexp prec emax 0) (0 - 0)) with (-53)%Z.
  change (0 - 0 - -53)%Z with 53%Z. cbv beta iota zeta.
  rewrite div_eucl_self_shift.
  replace (new_location (Z.pos p) 0) with loc_Exact.
  - vm_compute. reflexivity.
  - unfold new_location. destruct (Z.even (Z.pos p)); reflexivity.
Qed.

Lemma spec_metrics_all_matched (n : nat) :
  spec_metrics (S n) 0 0
  = (PyFloat float_one, PyFloat float_one, PyFloat float_one).
Proof.
  unfold spec_metrics, spec_ratio. rewrite Nat.add_0_r.
  change (Nat.eqb (S n) 0) with false. cbv iota.
  rewrite int_truediv_self by lia. vm_compute. reflexivity.
Qed.

Lemma key_dict_nonempty (f : Finding) (A : list Finding) :
  exists n, List.length (key_dict (f :: A)) = S n.
Proof.
  rewrite <- (length_map fst). fold (PyDict.keys (key_dict (f :: A))).
  rewrite keys_key_dict. simpl. eexists. reflexivity.
Qed.

(** X9. A non-empty collection compared with itself scores exactly [1.0] on
    precision, recall and F1. *)
Theorem metrics_of_self (A : list Finding) :
  A <> [] ->
  metrics_of A A
  = Some (PyFloat float_one, PyFloat float_one, PyFloat float_one).
Proof.
  intros HA. destruct A as [|f A]; [congruence|].
  unfold metrics_of.
  destruct (compare_sizes (f :: A) (f :: A)) as [Hsize _]. revert Hsize.
  rewrite compare_closed_form, absent_from_self.
  unfold matched, aOnly. simpl fst. simpl snd.
  destruct (key_dict_nonempty f A) as [n ->].
  rewrite Nat.add_0_r. intros Hsize.
  rewrite compute_metrics_closed_form, Hsize.
  apply f_equal, spec_metrics_all_matched.
Qed.

Lemma metrics_of_self_witness :
  metrics_of [mkFinding (Some "a.B$C") (Some "x") (Some "Map") None None]
             [mkFinding (Some "a.B$C") (Some "x") (Some "Map") None None]
  = Some (PyFloat float_one, PyFloat float_one, PyFloat float_one).
Proof. apply metrics_of_self. discriminate. Defined.

(** X10. Whenever every finding is matched (no scanner-only and no
    ground-truth-only finding, at least one pair) the three metrics are
    exactly [1.0], however many pairs there are. *)
Theorem compute_metrics_all_matched (tp : list (Finding * Finding)) :
  tp <> [] ->
  compute_metrics tp [] []
  = Some (PyFloat float_one, PyFloat float_one, PyFloat float_one).
Proof.
  intros H. destruct tp as [|p tp]; [congruence|].
  rewrite compute_metrics_closed_form. apply f_equal.
  apply spec_metrics_all_matched.
Qed.

Lemma compute_metrics_all_matched_witness :
  compute_metrics
    [(mkFinding (Some "a.B$C") (Some "x") (Some "Map") None None,
      mkFinding (Some "a.B.C") (Some "x") None None None)] [] []
  = Some (PyFloat float_one, PyFloat float_one, PyFloat float_one).
Proof. apply compute_metrics_all_matched. discriminate. Defined.

(** X11. Exchanging scanner output and ground truth exchanges precision and
    recall. *)
Theorem metrics_of_exchange (A B : list Finding) :
  exists precision recall f1 f1',
    metrics_of A B = Some (precision, recall, f1)
    /\ metrics_of B A = Some (recall, precision, f1').
Proof.
  unfold metrics_of. rewrite !compare_closed_form.
  rewrite !compute_metrics_closed_form.
  rewrite (Permutation_length (pairs_of_exchange A B)), length_map.
  unfold spec_metrics. eexists _, _, _, _. split; reflexivity.
Qed.

(** ** More on the categories *)

Lemma categorize_snoc (fs : list Finding) (f : Finding) :
  categorize_by_type (fs ++ [f])
  = defaultdict_append (categorize_by_type fs) (label_of f) f.
Proof. unfold categorize_by_type. rewrite fold_left_app. reflexivity. Qed.

Lemma keys_defaultdict_append (d : PyDict.t (list Finding)) (l : string)
    (f : Finding) :
  PyDict.keys (defaultdict_append d l f)
  = if PyDict.mem d l then PyDict.keys d else PyDict.keys d ++ [l].
Proof.
  unfold defaultdict_append.
  destruct (PyDict.lookup d l) eqn:E; apply PyDictFacts.keys_set.
Qed.

Lemma keys_categorize (fs : list Finding) :
  PyDict.keys (categorize_by_type fs) = first_occurrences (map label_of fs).
Proof.
  induction fs as [|f fs IH] using rev_ind; [reflexivity|].
  rewrite categorize_snoc, keys_defaultdict_append, map_app. simpl.
  rewrite first_occurrences_snoc, PyDictFacts.mem_existsb, IH.
  destruct (existsb _ _); [rewrite app_nil_r|]; reflexivity.
Qed.

Lemma dict_by_keys (V : Type) (g : string -> V) (d : PyDict.t V) :
  Forall (fun item => snd item = g (fst item)) d ->
  d = map (fun k => (k, g k)) (PyDict.keys d).
Proof.
  induction 1 as [|[k v] d Hx Hd IH]; simpl; [reflexivity|].
  simpl in Hx. subst v. f_equal. exact IH.
Qed.

Lemma categorize_closed_form (findings : list Finding) :
  categorize_by_type findings
  = map (fun label =>
           (label, filter (fun f => String.eqb (label_of f) label) findings))
        (first_occurrences (map label_of findings)).
Proof.
  rewrite <- keys_categorize. apply dict_by_keys.
  apply Forall_forall. intros [label b] Hin. simpl. unfold label_of.
  rewrite <- (bucket_categorize findings label). unfold bucket.
  assert (Hnd : NoDup (PyDict.keys (categorize_by_type findings))).
  { rewrite keys_categorize. apply first_occurrences_NoDup. }
  rewrite (PyDictFacts.In_lookup _ _ _ Hnd Hin). reflexivity.
Qed.

(** X12. The result of [categorize_by_type] in closed form: its labels are
    the labels of the findings in the order in which each is first met, and
    under each label stand the findings of that label in input order.  So no
    label has an empty list and no label occurs twice. *)
Theorem categorize_by_type_closed_form (findings : list Finding) :
  categorize_by_type findings
  = map (fun label =>
           (label, filter (fun f => String.eqb (label_of f) label) findings))
        (first_occurrences (map label_of findings))
  /\ NoDup (PyDict.keys (categorize_by_type findings))
  /\ Forall (fun item => snd item <> []) (categorize_by_type findings).
Proof.
  split; [apply categorize_closed_form|].
  split; [rewrite keys_categorize; apply first_occurrences_NoDup|].
  rewrite categorize_closed_form. apply Forall_map, Forall_forall.
  intros label Hin. simpl. apply first_occurrences_In, in_map_iff in Hin.
  destruct Hin as [f [Hf Hin]]. intros Hnil.
  assert (H : In f (filter (fun g => String.eqb (label_of g) label) findings)).
  { apply filter_In. split; [exact Hin|]. apply String.eqb_eq, Hf. }
  rewrite Hnil in H. destruct H.
Qed.

Lemma concat_defaultdict_append (d : PyDict.t (list Finding)) (l : string)
    (f : Finding) :
  Permutation (List.concat (map snd (defaultdict_append d l f)))
              (f :: List.concat (map snd d)).
Proof.
  assert (Hset : forall v : list Finding,
             Permutation
               (List.concat (map snd (PyDict.set d l (v ++ [f]))))
               (f :: List.concat
                       (map snd (PyDict.set d l v)))).
  { intros v. induction d as [|[k b] d IH]; simpl.
    - rewrite !app_nil_r. symmetry. apply Permutation_cons_append.
    - destruct (String.eqb k l); simpl.
      + rewrite <- app_assoc. simpl. symmetry. apply Permutation_middle.
      + rewrite IH. symmetry. apply Permutation_middle. }
  assert (Hsame : forall b : list Finding,
             PyDict.lookup d l = Some b -> PyDict.set d l b = d).
  { clear Hset. induction d as [|[k b0] d IH]; simpl; [discriminate|].
    intros b. destruct (String.eqb k l).
    - intros H. injection H as ->. reflexivity.
    - intros H. rewrite (IH b H). reflexivity. }
  assert (Hnew : PyDict.lookup d l = None ->
                 List.concat (map snd (PyDict.set d l []))
                 = List.concat (map snd d)).
  { clear Hset Hsame. induction d as [|[k b0] d IH]; simpl; [reflexivity|].
    destruct (String.eqb k l); [discriminate|].
    intros H. simpl. rewrite (IH H). reflexivity. }
  unfold defaultdict_append.
  destruct (PyDict.lookup d l) as [b|] eqn:E.
  - rewrite Hset, (Hsame b eq_refl). reflexivity.
  - rewrite Hset, (Hnew eq_refl). reflexivity.
Qed.

(** X13. The lists of the result together hold every finding exactly once:
    joined, they are a rearrangement of the input, and their sizes add up to
    the number of findings. *)
Theorem categorize_by_type_partitions (findings : list Finding) :
  Permutation (List.concat (map snd (categorize_by_type findings))) findings
  /\ list_sum (map (fun item => List.length (snd item))
                   (categorize_by_type findings))
     = List.length findings.
Proof.
  assert (H : Permutation (List.concat (map snd (categorize_by_type findings)))
                          findings).
  { induction findings as [|f fs IH] using rev_ind; [constructor|].
    rewrite categorize_snoc, concat_defaultdict_append, IH.
    apply Permutation_cons_append. }
  split; [exact H|].
  rewrite <- (Permutation_length H), length_concat, map_map. reflexivity.
Qed.

Lemma prefix_iff (needle hay : string) :
  prefix needle hay = true <-> exists rest, hay = (needle ++ rest)%string.
Proof.
  revert hay. induction needle as [|a needle IH]; intros hay.
  - destruct hay; simpl; split; auto; intros _; eexists; reflexivity.
  - destruct hay as [|b hay]; simpl.
    + split; [discriminate | intros [rest H]; discriminate H].
    + destruct (ascii_dec a b) as [->|Hne].
      * rewrite IH. split; intros [rest H]; exists rest.
        -- rewrite H. reflexivity.
        -- injection H as H. exact H.
      * split; [discriminate|]. intros [rest H]. injection H as H _.
        congruence.
Qed.

Lemma contains_iff (needle hay : string) :
  contains needle hay = true
  <-> exists before rest, hay = (before ++ needle ++ rest)%string.
Proof.
  induction hay as [|c hay IH].
  - change (contains needle "") with (prefix needle "" || false).
    rewrite orb_false_r, prefix_iff. split.
    + intros [rest H]. exists "", rest. exact H.
    + intros [before [rest H]]. destruct before; [|discriminate H].
      exists rest. exact H.
  - change (contains needle (String c hay))
      with (prefix needle (String c hay) || contains needle hay).
    rewrite orb_true_iff, prefix_iff, IH. split.
    + intros [[rest H]|[before [rest H]]].
      * exists "", rest. exact H.
      * exists (String c before), rest. rewrite H. reflexivity.
    + intros [[|b before] [rest H]].
      * left. exists rest. exact H.
      * right. simpl in H. injection H as _ H. exists before, rest. exact H.
Qed.

(** A string that holds a needle holds every part of the needle. *)
Lemma contains_part (front needle back hay : string) :
  contains (front ++ needle ++ back) hay = true -> contains needle hay = true.
Proof.
  rewrite !contains_iff. intros [before [rest H]].
  exists (before ++ front)%string, (back ++ rest)%string.
  rewrite H, !string_app_assoc. reflexivity.
Qed.

Lemma orb_subsumed (a b : bool) : (b = true -> a = true) -> a || b = a.
Proof. destruct a, b; simpl; auto. intros H. symmetry. apply H. reflexivity. Qed.

(** X14. Five needles of the chain never decide anything: ["FastThreadLocal"],
    ["LoadingCache"], ["HashMap"], ["ConcurrentHashMap"] and ["ArrayList"]
    each hold the needle tested just before them, so the chain gives the same
    label with the first needle of each test alone. *)
Theorem category_of_redundant_needles (field_type : string) :
  category_of field_type = category_of_first_needles field_type.
Proof.
  unfold category_of, category_of_first_needles.
  rewrite (@orb_subsumed (contains "ThreadLocal" field_type)
             (contains "FastThreadLocal" field_type)
             (contains_part "Fast" "ThreadLocal" "" field_type)).
  rewrite (@orb_subsumed (contains "Cache" field_type)
             (contains "LoadingCache" field_type)
             (contains_part "Loading" "Cache" "" field_type)).
  rewrite (@orb_subsumed (contains "Map" field_type)
             (contains "HashMap" field_type)
             (contains_part "Hash" "Map" "" field_type)).
  rewrite (@orb_subsumed (contains "Map" field_type)
             (contains "ConcurrentHashMap" field_type)
             (contains_part "ConcurrentHash" "Map" "" field_type)).
  rewrite (@orb_subsumed (contains "List" field_type)
             (contains "ArrayList" field_type)
             (contains_part "Array" "List" "" field_type)).
  reflexivity.
Qed.

Lemma filter_all (X : Type) (p : X -> bool) (l : list X) :
  Forall (fun x => p x = true) l -> filter p l = l.
Proof.
  induction 1 as [|x l Hx Hl IH]; simpl; [reflexivity|].
  rewrite Hx, IH. reflexivity.
Qed.

(** X15. Findings that all lack a field type, or have the empty one, end up
    together under Other, in input order, as the only list. *)
Theorem categorize_by_type_without_type (findings : list Finding) :
  findings <> [] ->
  Forall (fun f => get fieldType f "" = "") findings ->
  categorize_by_type findings = [("Other", findings)].
Proof.
  intros Hne Hall. rewrite categorize_closed_form.
  assert (Hlab : Forall (fun f => String.eqb (label_of f) "Other" = true)
                        findings).
  { eapply Forall_impl; [|exact Hall]. intros f Hf. unfold label_of.
    rewrite Hf. reflexivity. }
  assert (Hmap : map label_of findings = map (fun _ => "Other") findings).
  { clear Hne. induction Hlab as [|f l Hf Hl IH]; simpl; [reflexivity|].
    apply String.eqb_eq in Hf. rewrite Hf. f_equal. apply IH.
    inversion Hall; assumption. }
  rewrite Hmap. destruct findings as [|f fs]; [congruence|].
  assert (Hk : first_occurrences (map (fun _ : Finding => "Other") (f :: fs))
               = ["Other"]).
  { simpl. unfold first_occurrences. simpl. f_equal.
    clear. induction fs as [|g fs IH]; simpl; auto. }
  rewrite Hk. cbn [map]. rewrite (filter_all _ Hlab). reflexivity.
Qed.

Lemma categorize_by_type_without_type_witness :
  categorize_by_type
    [mkFinding (Some "a.B") (Some "x") None None None;
     mkFinding (Some "a.C") (Some "y") (Some "") None None]
  = [("Other", [mkFinding (Some "a.B") (Some "x") None None None;
                mkFinding (Some "a.C") (Some "y") (Some "") None None])].
Proof.
  apply categorize_by_type_without_type; [discriminate|].
  repeat constructor.
Defined.

(** ** The rankings of the report *)

Section StableSort.
Variable X : Type.
Variable key : X -> Z.

Lemma insert_by_perm (x : X) (l : list X) :
  Permutation (insert_by key x l) (x :: l).
Proof.
  induction l as [|y l IH]; simpl; [reflexivity|].
  destruct (key x <=? key y)%Z; [reflexivity|].
  rewrite IH. apply perm_swap.
Qed.

Lemma sorted_perm (l : list X) : Permutation (sorted key l) l.
Proof.
  unfold sorted. induction l as [|x l IH]; simpl; [constructor|].
  rewrite insert_by_perm. constructor. exact IH.
Qed.

Lemma insert_by_sorted (x : X) (l : list X) :
  StronglySorted (fun a b => (key a <= key b)%Z) l ->
  StronglySorted (fun a b => (key a <= key b)%Z) (insert_by key x l).
Proof.
  induction 1 as [|y l Hl IH Hy]; simpl.
  - constructor; constructor.
  - destruct (Z.leb_spec (key x) (key y)) as [Hle|Hgt].
    + constructor; [constructor; assumption|].
      constructor; [exact Hle|].
      eapply Forall_impl; [|exact Hy]. simpl. intros z Hz. lia.
    + constructor; [exact IH|].
      assert (Hxl : Forall (fun b => (key y <= key b)%Z) (x :: l)).
      { constructor; [lia | exact Hy]. }
      rewrite Forall_forall in *. intros z Hz. apply Hxl.
      apply (Permutation_in z (insert_by_perm x l) Hz).
Qed.

Lemma sorted_sorted (l : list X) :
  StronglySorted (fun a b => (key a <= key b)%Z) (sorted key l).
Proof.
  unfold sorted. induction l as [|x l IH]; simpl; [constructor|].
  apply insert_by_sorted, IH.
Qed.

Lemma insert_by_stable (k : Z) (x : X) (l : list X) :
  filter (fun a => (key a =? k)%Z) (insert_by key x l)
  = filter (fun a => (key a =? k)%Z) (x :: l).
Proof.
  induction l as [|y l IH]; [reflexivity|].
  simpl insert_by. destruct (Z.leb_spec (key x) (key y)) as [Hle|Hgt];
    [reflexivity|].
  simpl in *. rewrite IH.
  destruct (Z.eqb_spec (key x) k) as [Hx|Hx];
    destruct (Z.eqb_spec (key y) k) as [Hy|Hy]; try reflexivity. lia.
Qed.

Lemma sorted_stable (k : Z) (l : list X) :
  filter (fun a => (key a =? k)%Z) (sorted key l)
  = filter (fun a => (key a =? k)%Z) l.
Proof.
  unfold sorted. induction l as [|x l IH]; [reflexivity|].
  simpl fold_right. rewrite insert_by_stable. simpl. rewrite IH. reflexivity.
Qed.
End StableSort.

Lemma StronglySorted_weaken (X : Type) (R R' : X -> X -> Prop) (l : list X) :
  (forall x y, R x y -> R' x y) -> StronglySorted R l -> StronglySorted R' l.
Proof.
  intros HR. induction 1 as [|x l Hl IH Hx]; constructor; auto.
  eapply Forall_impl; [|exact Hx]. apply HR.
Qed.

(** X16. The category ranking of the report lists every entry of the
    dictionary once, the larger lists first, and entries with lists of one
    size in the order the dictionary has them (the order in which the labels
    were first met). *)
Theorem rank_categories_stable (cats : PyDict.t (list Finding)) :
  Permutation (rank_categories cats) cats
  /\ StronglySorted
       (fun x y => List.length (snd y) <= List.length (snd x))
       (rank_categories cats)
  /\ forall n : nat,
       filter (fun x => Nat.eqb (List.length (snd x)) n) (rank_categories cats)
       = filter (fun x => Nat.eqb (List.length (snd x)) n) cats.
Proof.
  unfold rank_categories, PyDict.items. split; [apply sorted_perm|]. split.
  - eapply StronglySorted_weaken; [|apply sorted_sorted].
    intros x y H. simpl in H. lia.
  - intros n.
    pose proof (sorted_stable
                  (fun x : string * list Finding =>
                     (- Z.of_nat (List.length (snd x)))%Z)
                  (- Z.of_nat n) cats) as H.
    erewrite (filter_ext _ (fun a => (- Z.of_nat (List.length (snd a))
                                      =? - Z.of_nat n)%Z)).
    + rewrite H. apply filter_ext. intros a.
      apply eq_true_iff_eq. rewrite Z.eqb_eq, Nat.eqb_eq. lia.
    + intros a. apply eq_true_iff_eq. rewrite Z.eqb_eq, Nat.eqb_eq. lia.
Qed.

(** X17. The module ranking of [compare.py] lists every entry of the counter
    once, the larger counts first, and modules of one count in the order in
    which they were first counted. *)
Theorem rank_modules_stable (by_module : PyDict.t Z) :
  Permutation (rank_modules by_module) by_module
  /\ StronglySorted (fun x y => (snd y <= snd x)%Z) (rank_modules by_module)
  /\ forall n : Z,
       filter (fun x => (snd x =? n)%Z) (rank_modules by_module)
       = filter (fun x => (snd x =? n)%Z) by_module.
Proof.
  unfold rank_modules, PyDict.items. split; [apply sorted_perm|]. split.
  - eapply StronglySorted_weaken; [|apply sorted_sorted].
    intros x y H. simpl in H. lia.
  - intros n.
    pose proof (sorted_stable (fun x : string * Z => (- snd x)%Z)
                  (- n) by_module) as H.
    erewrite (filter_ext _ (fun a => (- snd a =? - n)%Z)).
    + rewrite H. apply filter_ext. intros a.
      apply eq_true_iff_eq. rewrite !Z.eqb_eq. lia.
    + intros a. apply eq_true_iff_eq. rewrite !Z.eqb_eq. lia.
Qed.

(** ** The loader *)

Lemma load_statescan_output_map (raw : list Finding) :
  load_statescan_output (Some raw) = map filled raw.
Proof.
  unfold load_statescan_output.
  induction raw as [|f raw IH] using rev_ind; [reflexivity|].
  rewrite fold_left_app, map_app, IH. reflexivity.
Qed.

Lemma create_key_filled (f : Finding) : create_key (filled f) = create_key f.
Proof. reflexivity. Qed.

Lemma filled_filled (f : Finding) : filled (filled f) = filled f.
Proof. reflexivity. Qed.

(** X18. Loading keeps the findings and their order, gives every finding
    all five entries (an absent one becomes the empty string) and changes
    neither a comparison key nor a category label; without a ['findings']
    entry the result is empty. *)
Theorem load_statescan_output_fills (raw : list Finding) :
  load_statescan_output None = []
  /\ List.length (load_statescan_output (Some raw)) = List.length raw
  /\ Forall complete (load_statescan_output (Some raw))
  /\ map (fun f => get className f "") (load_statescan_output (Some raw))
     = map (fun f => get className f "") raw
  /\ map (fun f => get fieldName f "") (load_statescan_output (Some raw))
     = map (fun f => get fieldName f "") raw
  /\ map (fun f => get fieldType f "") (load_statescan_output (Some raw))
     = map (fun f => get fieldType f "") raw
  /\ map (fun f => get pattern f "") (load_statescan_output (Some raw))
     = map (fun f => get pattern f "") raw
  /\ map (fun f => get riskLevel f "") (load_statescan_output (Some raw))
     = map (fun f => get riskLevel f "") raw
  /\ map create_key (load_statescan_output (Some raw)) = map create_key raw
  /\ map label_of (load_statescan_output (Some raw)) = map label_of raw.
Proof.
  rewrite !load_statescan_output_map.
  split; [reflexivity|]. split; [apply length_map|]. split.
  - apply Forall_map, Forall_forall. intros f _.
    unfold complete. simpl. repeat split; discriminate.
  - repeat split; rewrite map_map; reflexivity.
Qed.

Lemma set_filled (d : PyDict.t Finding) (k : string) (f : Finding) :
  map (fun item => (fst item, filled (snd item))) (PyDict.set d k f)
  = PyDict.set (map (fun item => (fst item, filled (snd item))) d) k
               (filled f).
Proof.
  induction d as [|[k' f'] d IH]; simpl; [reflexivity|].
  destruct (String.eqb k' k); simpl; [reflexivity|]. rewrite IH. reflexivity.
Qed.

Lemma key_dict_filled (raw : list Finding) :
  key_dict (map filled raw)
  = map (fun item => (fst item, filled (snd item))) (key_dict raw).
Proof.
  induction raw as [|f raw IH] using rev_ind; [reflexivity|].
  rewrite map_app. simpl. rewrite !key_dict_snoc, IH, set_filled.
  reflexivity.
Qed.

Lemma mem_filled (d : PyDict.t Finding) (k : string) :
  PyDict.mem (map (fun item => (fst item, filled (snd item))) d) k
  = PyDict.mem d k.
Proof.
  unfold PyDict.mem. induction d as [|[k' f'] d IH]; simpl; [reflexivity|].
  destruct (String.eqb k' k); [reflexivity | exact IH].
Qed.

(** X19. Loading commutes with the comparison: comparing the loaded scanner
    output gives the pairs and the scanner-only findings of the raw
    comparison with their scanner findings filled in, the very same
    ground-truth-only list and the very same metrics. *)
Theorem compare_after_loading (raw B : list Finding) :
  let loaded := load_statescan_output (Some raw) in
  matched (compare loaded B)
  = map (fun p => (filled (fst p), snd p)) (matched (compare raw B))
  /\ aOnly (compare loaded B) = map filled (aOnly (compare raw B))
  /\ bOnly (compare loaded B) = bOnly (compare raw B)
  /\ metrics_of loaded B = metrics_of raw B.
Proof.
  cbv zeta. rewrite load_statescan_output_map.
  assert (H : compare (map filled raw) B
              = (map (fun p => (filled (fst p), snd p))
                     (matched (compare raw B)),
                 map filled (aOnly (compare raw B)),
                 bOnly (compare raw B))).
  { rewrite !compare_closed_form, key_dict_filled.
    unfold matched, aOnly, bOnly. simpl. f_equal; [f_equal|].
    - unfold pairs_of. induction (key_dict raw) as [|[k f] d IH]; simpl;
        [reflexivity|].
      rewrite map_app, <- IH.
      destruct (PyDict.lookup (key_dict B) k); reflexivity.
    - unfold absent_from. induction (key_dict raw) as [|[k f] d IH]; simpl;
        [reflexivity|].
      destruct (PyDict.mem (key_dict B) k); simpl; rewrite IH; reflexivity.
    - unfold absent_from. f_equal. apply filter_ext. intros [k f]. simpl.
      rewrite mem_filled. reflexivity. }
  rewrite H. unfold matched at 1, aOnly at 1, bOnly at 1. simpl.
  repeat split.
  unfold metrics_of. rewrite H.
  destruct (compare raw B) as [[tp fp] fn]. unfold matched, aOnly, bOnly.
  simpl. rewrite !compute_metrics_closed_form, !length_map. reflexivity.
Qed.

(** ** The groupings of the report *)

Lemma fold_bind_none (X S : Type) (step : S -> X -> option S) (l : list X) :
  fold_left (fun acc x => s <- acc ;; step s x) l None = None.
Proof. induction l as [|x l IH]; simpl; auto. Qed.

Lemma group_by_class_from (fp : list Finding) (d : PyDict.t (list Finding)) :
  fold_left
    (fun acc f =>
       by_class <- acc ;;
       match className f with
       | Some cls => Some (defaultdict_append by_class cls f)
       | None => None
       end)
    fp (Some d) = None
  <-> Exists (fun f => className f = None) fp.
Proof.
  revert d. induction fp as [|f fp IH]; intros d; simpl.
  - split; [discriminate | intros H; inversion H].
  - destruct (className f) as [cls|] eqn:E.
    + rewrite IH. split; [intros H; right; exact H|].
      intros H. inversion H as [? ? Hf|? ? Hfp]; subst; [congruence | exact Hfp].
    + rewrite fold_bind_none. split; [|reflexivity].
      intros _. left. exact E.
Qed.

(** X20. Grouping findings by class raises [KeyError] exactly when one of
    them has no [className] entry. *)
Theorem group_by_class_key_error (fp : list Finding) :
  group_by_class fp = None <-> Exists (fun f => className f = None) fp.
Proof. apply group_by_class_from. Qed.

(** X21. In [main] the grouping of the false positives cannot raise: they
    come from the loaded scanner output, whose findings all have a
    [className] entry, whatever the raw scanner output and the ground truth
    are. *)
Theorem group_false_positives_never_fails
    (data_findings : option (list Finding)) (ground_truth : list Finding) :
  exists by_class,
    group_by_class
      (aOnly (compare (load_statescan_output data_findings) ground_truth))
    = Some by_class.
Proof.
  destruct (group_by_class
              (aOnly (compare (load_statescan_output data_findings)
                              ground_truth))) as [d|] eqn:E.
  - exists d. reflexivity.
  - exfalso. apply group_by_class_from in E. apply Exists_exists in E.
    destruct E as [f [Hin Hnone]].
    rewrite compare_closed_form in Hin. unfold aOnly in Hin. simpl in Hin.
    pose proof (absent_from_last (key_dict ground_truth)
                  (load_statescan_output data_findings)) as H.
    rewrite Forall_forall in H. apply H, last_with_key_In in Hin.
    destruct Hin as [Hin _].
    destruct data_findings as [raw|]; [|destruct Hin].
    rewrite load_statescan_output_map in Hin. apply in_map_iff in Hin.
    destruct Hin as [g [<- _]]. discriminate Hnone.
Qed.

Lemma index_in (x : string) (parts : list string) :
  list_in x parts = true ->
  exists i, index x parts = Some i /\ i < List.length parts.
Proof.
  unfold list_in. induction parts as [|y parts IH]; simpl; [discriminate|].
  rewrite (String.eqb_sym x y).
  destruct (String.eqb y x); simpl.
  - intros _. exists 0. split; [reflexivity | lia].
  - intros H. destruct (IH H) as [i [Hi Hlt]]. rewrite Hi.
    exists (S i). split; [reflexivity | lia].
Qed.

Lemma by_module_step_module_of (d : PyDict.t Z) (f : Finding) :
  by_module_step d f
  = match className f with
    | None => None
    | Some cls =>
        Some (match module_of cls with
              | Some m => defaultdict_incr d m
              | None => d
              end)
    end.
Proof.
  unfold by_module_step, module_of.
  destruct (className f) as [cls|]; [|reflexivity].
  cbv zeta. destruct (list_in "pulsar" (split "." cls)) eqn:Hin.
  - destruct (index_in _ _ Hin) as [i [Hi Hlt]]. rewrite Hi.
    destruct (Nat.ltb_spec (i + 1) (List.length (split "." cls))) as [H|H].
    + destruct (nth_error (split "." cls) (i + 1)) as [m|] eqn:E;
        [reflexivity|].
      apply nth_error_None in E. lia.
    + destruct (nth_error (split "." cls) (i + 1)) as [m|] eqn:E;
        [|reflexivity].
      assert (Hn : nth_error (split "." cls) (i + 1) <> None) by congruence.
      apply nth_error_Some in Hn. lia.
  - destruct (list_in "bookkeeper" (split "." cls)); reflexivity.
Qed.

Lemma count_of_incr (d : PyDict.t Z) (m' m : string) :
  count_of (defaultdict_incr d m') m
  = (count_of d m + (if String.eqb m' m then 1 else 0))%Z.
Proof.
  unfold count_of, defaultdict_incr.
  destruct (String.eqb_spec m' m) as [->|Hne].
  - destruct (PyDict.lookup d m);
      rewrite PyDictFacts.lookup_set_same; reflexivity.
  - destruct (PyDict.lookup d m');
      rewrite PyDictFacts.lookup_set_other by exact Hne; lia.
Qed.

Lemma count_by_module_from (gt : list Finding) (d : PyDict.t Z) :
  (fold_left (fun acc f => by_module <- acc ;; by_module_step by_module f)
             gt (Some d) = None
   <-> Exists (fun f => className f = None) gt)
  /\ forall d',
       fold_left (fun acc f => by_module <- acc ;; by_module_step by_module f)
                 gt (Some d) = Some d' ->
       forall m,
         count_of d' m
         = (count_of d m
            + Z.of_nat (List.length (filter (counted_under m) gt)))%Z.
Proof.
  revert d. induction gt as [|f gt IH]; intros d.
  - simpl. split.
    + split; [discriminate | intros H; inversion H].
    + intros d' H m. injection H as <-. lia.
  - change (fold_left ?F (f :: gt) (Some d))
      with (fold_left F gt (by_module_step d f)).
    rewrite by_module_step_module_of.
    destruct (className f) as [cls|] eqn:E.
    + destruct (IH (match module_of cls with
                    | Some m => defaultdict_incr d m
                    | None => d
                    end)) as [IH1 IH2].
      split.
      * rewrite IH1. split; [intros H; right; exact H|].
        intros H. inversion H as [? ? Hf|? ? Hgt]; subst;
          [congruence | exact Hgt].
      * intros d' H m. rewrite (IH2 d' H m).
        assert (Hc : counted_under m f
                     = match module_of cls with
                       | Some m' => String.eqb m' m
                       | None => false
                       end).
        { unfold counted_under. rewrite E. reflexivity. }
        simpl filter. rewrite Hc.
        destruct (module_of cls) as [m'|].
        -- rewrite count_of_incr.
           destruct (String.eqb m' m); simpl List.length; lia.
        -- lia.
    + split.
      * rewrite fold_bind_none. split; [|reflexivity].
        intros _. left. exact E.
      * intros d' H. rewrite fold_bind_none in H. discriminate H.
Qed.

(** X22. The per-module count of [compare.py] raises [KeyError] exactly when
    some ground-truth entry has no [className], although [compare] accepts
    such an entry. *)
Theorem count_by_module_key_error (ground_truth : list Finding) :
  count_by_module ground_truth = None
  <-> Exists (fun f => className f = None) ground_truth.
Proof. apply (count_by_module_from ground_truth (PyDict.empty Z)). Qed.

Lemma defaultdict_incr_positive (d : PyDict.t Z) (m : string) :
  Forall (fun item => (0 < snd item)%Z) d ->
  Forall (fun item => (0 < snd item)%Z) (defaultdict_incr d m).
Proof.
  intros H. unfold defaultdict_incr.
  destruct (PyDict.lookup d m) as [n|] eqn:E.
  - apply PyDictFacts.Forall_set; [exact H|]. simpl.
    apply PyDictFacts.lookup_In in E. rewrite Forall_forall in H.
    apply H in E. simpl in E. lia.
  - apply PyDictFacts.Forall_set; [exact H|]. simpl. lia.
Qed.

Lemma count_by_module_positive (gt : list Finding) (d d' : PyDict.t Z) :
  Forall (fun item => (0 < snd item)%Z) d ->
  fold_left (fun acc f => by_module <- acc ;; by_module_step by_module f)
            gt (Some d) = Some d' ->
  Forall (fun item => (0 < snd item)%Z) d'.
Proof.
  revert d. induction gt as [|f gt IH]; intros d Hd H.
  - injection H as <-. exact Hd.
  - change (fold_left ?F (f :: gt) (Some d))
      with (fold_left F gt (by_module_step d f)) in H.
    rewrite by_module_step_module_of in H.
    destruct (className f) as [cls|].
    + apply IH in H; [exact H|].
      destruct (module_of cls); [apply defaultdict_incr_positive|]; exact Hd.
    + rewrite fold_bind_none in H. discriminate H.
Qed.

Lemma filter_length_pos (X : Type) (p : X -> bool) (l : list X) :
  0 < List.length (filter p l) <-> Exists (fun x => p x = true) l.
Proof.
  induction l as [|x l IH]; simpl.
  - split; [lia | intros H; inversion H].
  - destruct (p x) eqn:E; simpl.
    + split; [intros _; left; exact E | lia].
    + rewrite IH. split; [intros H; right; exact H|].
      intros H. inversion H; subst; [congruence | assumption].
Qed.

(** X23. When the count succeeds, the number kept for a module is the number
    of ground-truth entries counted under it: the segment after the first
    ["pulsar"] segment of the class name, or ["bookkeeper"] when there is a
    ["bookkeeper"] segment and no ["pulsar"] one.  A module is in the counter
    exactly when some entry is counted under it. *)
Theorem count_by_module_counts (ground_truth : list Finding)
    (by_module : PyDict.t Z) (m : string) :
  count_by_module ground_truth = Some by_module ->
  count_of by_module m
  = Z.of_nat (List.length (filter (counted_under m) ground_truth))
  /\ (PyDict.mem by_module m = true
      <-> Exists (fun f => counted_under m f = true) ground_truth).
Proof.
  intros H.
  destruct (count_by_module_from ground_truth (PyDict.empty Z)) as [_ Hc].
  pose proof (Hc by_module H m) as Hm.
  change (count_of (PyDict.empty Z) m) with 0%Z in Hm. rewrite Z.add_0_l in Hm.
  split; [exact Hm|].
  pose proof (count_by_module_positive ground_truth (Forall_nil _) H) as Hpos.
  rewrite <- filter_length_pos.
  unfold count_of in Hm. unfold PyDict.mem.
  destruct (PyDict.lookup by_module m) as [n|] eqn:E.
  - apply PyDictFacts.lookup_In in E. rewrite Forall_forall in Hpos.
    apply Hpos in E. simpl in E. split; [lia | reflexivity].
  - split; [discriminate | lia].
Qed.

Lemma count_by_module_counts_witness :
  let gt := [ mkFinding (Some "org.apache.pulsar.broker.A") (Some "x")
                        None None None;
              mkFinding (Some "org.apache.bookkeeper.B") (Some "y")
                        None None None;
              mkFinding (Some "org.apache.pulsar.broker.C$D") (Some "z")
                        None None None ] in
  count_of [("broker", 2%Z); ("bookkeeper", 1%Z)] "broker"
  = Z.of_nat (List.length (filter (counted_under "broker") gt))
  /\ (PyDict.mem [("broker", 2%Z); ("bookkeeper", 1%Z)] "broker" = true
      <-> Exists (fun f => counted_under "broker" f = true) gt).
Proof.
  apply count_by_module_counts. reflexivity.
Defined.

Lemma index_first (x : string) (before rest : list string) :
  list_in x before = false ->
  index x (before ++ x :: rest) = Some (List.length before).
Proof.
  unfold list_in. induction before as [|y before IH]; simpl.
  - rewrite String.eqb_refl. reflexivity.
  - rewrite (String.eqb_sym x y). intros H. apply orb_false_elim in H.
    destruct H as [Hy H]. rewrite Hy, (IH H). reflexivity.
Qed.

Lemma list_in_app (x : string) (l1 l2 : list string) :
  list_in x (l1 ++ l2) = list_in x l1 || list_in x l2.
Proof. apply existsb_app. Qed.

(** X24. How a class name is assigned to a module.  When the first
    ["pulsar"] piece of the dotted name is followed by a piece, that piece is
    the module; when it is the last piece, the name is counted nowhere, not
    even under ["bookkeeper"] if it has such a piece. *)
Theorem module_of_first_pulsar (cls : string) (before : list string) :
  list_in "pulsar" before = false ->
  (forall m rest, split "." cls = before ++ "pulsar" :: m :: rest ->
                  module_of cls = Some m)
  /\ (split "." cls = before ++ ["pulsar"] -> module_of cls = None).
Proof.
  intros Hb. unfold module_of. split.
  - intros m rest E. rewrite E. cbv zeta.
    rewrite list_in_app, Hb, index_first by exact Hb. simpl orb. cbv iota.
    rewrite nth_error_app2 by lia.
    replace (List.length before + 1 - List.length before) with 1 by lia.
    reflexivity.
  - intros E. rewrite E. cbv zeta.
    rewrite list_in_app, Hb, index_first by exact Hb. simpl orb. cbv iota.
    apply nth_error_None. rewrite length_app. simpl. lia.
Qed.

Lemma module_of_first_pulsar_witness :
  (forall m rest,
     split "." "org.bookkeeper.pulsar"
     = ["org"; "bookkeeper"] ++ "pulsar" :: m :: rest ->
     module_of "org.bookkeeper.pulsar" = Some m)
  /\ (split "." "org.bookkeeper.pulsar" = ["org"; "bookkeeper"] ++ ["pulsar"] ->
      module_of "org.bookkeeper.pulsar" = None).
Proof.
  apply (module_of_first_pulsar "org.bookkeeper.pulsar" ["org"; "bookkeeper"]).
  reflexivity.
Defined.

(** ** The display of the false negatives *)

Lemma show_loop (l : list Finding) (printed : list string) :
  (fold_left (fun acc f => printed <- acc ;; show_false_negative printed f)
             l (Some printed) = None
   <-> Exists (fun f => className f = None \/ fieldName f = None) l)
  /\ forall printed',
       fold_left (fun acc f => printed <- acc ;; show_false_negative printed f)
                 l (Some printed) = Some printed' ->
       List.length printed' = List.length printed + 3 * List.length l.
Proof.
  revert printed. induction l as [|f l IH]; intros printed.
  - simpl. split.
    + split; [discriminate | intros H; inversion H].
    + intros printed' H. injection H as <-. lia.
  - change (fold_left ?F (f :: l) (Some printed))
      with (fold_left F l (show_false_negative printed f)).
    unfold show_false_negative.
    destruct (className f) as [c|] eqn:Ec; [destruct (fieldName f) as [n|] eqn:En|].
    + destruct (IH (printed ++ [("  " ++ c ++ "::" ++ n)%string;
                                ("    Type: " ++ get fieldType f "N/A")%string;
                                ("    Pattern: " ++ get pattern f "N/A")%string]))
        as [IH1 IH2].
      split.
      * rewrite IH1. split; [intros H; right; exact H|].
        intros H. inversion H as [? ? [Hf|Hf]|? ? Hl]; subst;
          [congruence | congruence | exact Hl].
      * intros printed' H. rewrite (IH2 printed' H), length_app. simpl. lia.
    + split.
      * rewrite fold_bind_none. split; [|reflexivity]. intros _. left. auto.
      * intros printed' H. rewrite fold_bind_none in H. discriminate H.
    + split.
      * rewrite fold_bind_none. split; [|reflexivity]. intros _. left. auto.
      * intros printed' H. rewrite fold_bind_none in H. discriminate H.
Qed.

Lemma show_false_negatives_none (fn : list Finding) :
  show_false_negatives fn = None
  <-> Exists (fun f => className f = None \/ fieldName f = None)
             (firstn 15 fn).
Proof.
  destruct fn as [|f fn].
  - simpl. split; [discriminate | intros H; inversion H].
  - unfold show_false_negatives.
    set (header := [repeat_string "=" 70; _; repeat_string "=" 70]).
    destruct (show_loop (firstn 15 (f :: fn)) header) as [H1 _].
    rewrite <- H1.
    destruct (fold_left _ (firstn 15 (f :: fn)) (Some header)) as [p|];
      simpl; split; auto; discriminate.
Qed.

(** X25. The display of the false negatives raises [KeyError] exactly when
    one of the first fifteen has no [className] or no [fieldName]; findings
    past the fifteenth are never looked at. *)
Theorem show_false_negatives_key_error (fn : list Finding) :
  show_false_negatives fn = None
  <-> Exists (fun f => className f = None \/ fieldName f = None)
             (firstn 15 fn).
Proof. apply show_false_negatives_none. Qed.

Lemma show_loop_lines (l : list Finding) (printed printed' : list string) :
  fold_left (fun acc f => printed <- acc ;; show_false_negative printed f)
            l (Some printed) = Some printed' ->
  printed' = printed ++ flat_map finding_lines l.
Proof.
  revert printed. induction l as [|f l IH]; intros printed H.
  - injection H as <-. simpl. rewrite app_nil_r. reflexivity.
  - change (fold_left ?F (f :: l) (Some printed))
      with (fold_left F l (show_false_negative printed f)) in H.
    unfold show_false_negative in H.
    destruct (className f) as [c|] eqn:Ec;
      [destruct (fieldName f) as [n|] eqn:En|].
    + apply IH in H. rewrite H, <- app_assoc. f_equal.
      simpl flat_map. unfold finding_lines at 2, get.
      rewrite Ec, En. reflexivity.
    + rewrite fold_bind_none in H. discriminate H.
    + rewrite fold_bind_none in H. discriminate H.
Qed.

(** X26. When the display succeeds it prints exactly this: nothing for an
    empty list; otherwise the rule, the title with the number of false
    negatives and the rule again, then for each of the first fifteen
    findings its class and field name, its type and its pattern (["N/A"]
    for an absent one), then the number of findings left out if there are
    more than fifteen, and an empty line at the end.  So it prints
    [4 + 3 * min 15 n] lines, and one more past fifteen findings. *)
Theorem show_false_negatives_lines (fn : list Finding) (lines : list string) :
  show_false_negatives fn = Some lines ->
  lines = display_lines fn
  /\ (fn <> [] -> last lines "x" = "")
  /\ List.length lines
     = match fn with
       | [] => 0
       | _ :: _ => 4 + 3 * Nat.min 15 (List.length fn)
                   + (if Nat.ltb 15 (List.length fn) then 1 else 0)
       end.
Proof.
  intros H.
  assert (Hlines : lines = display_lines fn).
  { destruct fn as [|f fn]; [injection H as <-; reflexivity|].
    unfold show_false_negatives in H. unfold display_lines.
    set (header := [repeat_string "=" 70; _; repeat_string "=" 70]) in *.
    destruct (fold_left _ (firstn 15 (f :: fn)) (Some header)) as [p|] eqn:E;
      [|discriminate H].
    apply show_loop_lines in E. unfold bind in H. injection H as <-.
    rewrite E. simpl List.length. simpl Nat.sub.
    destruct (Nat.ltb 15 (S (List.length fn)));
      rewrite <- ?app_assoc; reflexivity. }
  split; [exact Hlines|]. subst lines. split.
  - intros Hne. destruct fn as [|f fn]; [congruence|].
    unfold display_lines. rewrite !app_assoc. apply last_last.
  - destruct fn as [|f fn]; [reflexivity|].
    unfold display_lines. rewrite !length_app.
    assert (Hflat : forall l : list Finding,
               List.length (flat_map finding_lines l) = 3 * List.length l).
    { induction l as [|x l IH]; simpl; [reflexivity|]. rewrite IH. lia. }
    rewrite Hflat, length_firstn.
    destruct (Nat.ltb 15 (List.length (f :: fn))); simpl List.length; lia.
Qed.

Lemma show_false_negatives_lines_witness :
  let fn := [ mkFinding (Some "a.B") (Some "x") (Some "Map") None None;
              mkFinding (Some "a.C$D") (Some "y") None (Some "static") None ] in
  let lines :=
    [ repeat_string "=" 70; "FALSE NEGATIVES (2 missed by state-scan)";
      repeat_string "=" 70;
      "  a.B::x"; "    Type: Map"; "    Pattern: N/A";
      "  a.C$D::y"; "    Type: N/A"; "    Pattern: static";
      "" ] in
  lines = display_lines fn
  /\ (fn <> [] -> last lines "x" = "")
  /\ List.length lines
     = 4 + 3 * Nat.min 15 (List.length fn)
       + (if Nat.ltb 15 (List.length fn) then 1 else 0).
Proof.
  cbv zeta.
  apply (show_false_negatives_lines
           [ mkFinding (Some "a.B") (Some "x") (Some "Map") None None;
             mkFinding (Some "a.C$D") (Some "y") None (Some "static") None ]).
  reflexivity.
Defined.

Lemma In_firstn (X : Type) (n : nat) (l : list X) (x : X) :
  In x (firstn n l) -> In x l.
Proof.
  revert l. induction n as [|n IH]; intros [|y l]; simpl; try tauto.
  intros [H|H]; auto.
Qed.

(** X27. The comparison takes a ground-truth entry without [className], the
    report does not: if the scanner has no finding of its key, such an entry
    alone in the ground truth is a false negative and its display raises.
    When every ground-truth entry has a [className] and a [fieldName], the
    display of the false negatives never raises, whatever the scanner
    output. *)
Theorem show_missed_entries (A ground_truth : list Finding) :
  (Forall (fun g => className g <> None /\ fieldName g <> None) ground_truth ->
   show_false_negatives (bOnly (compare A ground_truth)) <> None)
  /\ (forall g, className g = None -> has_key A (create_key g) = false ->
                bOnly (compare A [g]) = [g]
                /\ show_false_negatives (bOnly (compare A [g])) = None).
Proof.
  split.
  - intros Hall Hnone. apply show_false_negatives_none in Hnone.
    apply Exists_exists in Hnone. destruct Hnone as [g [Hin Hbad]].
    apply In_firstn in Hin.
    rewrite compare_closed_form in Hin. unfold bOnly in Hin. simpl in Hin.
    pose proof (absent_from_last (key_dict A) ground_truth) as H.
    rewrite Forall_forall in H. apply H, last_with_key_In in Hin.
    destruct Hin as [Hin _]. rewrite Forall_forall in Hall.
    destruct (Hall g Hin) as [Hc Hf]. tauto.
  - intros g Hc Hk.
    assert (Hb : bOnly (compare A [g]) = [g]).
    { rewrite compare_closed_form. unfold bOnly, absent_from. simpl.
      rewrite mem_key_dict, Hk. reflexivity. }
    split; [exact Hb|]. rewrite Hb.
    apply show_false_negatives_none. left. left. exact Hc.
Qed.
